(** * prometheus-remote-write: the writer package

    A shallow embedding of [writer/impl.go], [writer/outputs.go] and
    [writer/writer.go], and the properties of the conversion pipeline
    (metric families to remote-write time series) and of [WriteMetrics].

    Conventions.
    - A Go [int64]/[int32] is a [Z]; arithmetic that can wrap goes through
      [wrap64].  A [float64] is a primitive float; the code only copies
      floats, it never computes with them.
    - A protobuf optional field ([*string], [*float64], a message pointer)
      is an [option]; the generated [GetX] accessors return the zero value
      on [None], as in the generated Go code.
    - A Go slice is a [list]: the code below observes slices only through
      [len], [range], [append] and indexing, so a nil slice and an empty
      one are both [[]].
    - A Go [error] is its message. *)

From Stdlib Require Import ZArith List Floats Lia.
From Stdlib.Strings Require Import Byte.
From stdpp Require Import base list strings gmap pretty.

Local Open Scope Z_scope.

(** ** Machine integers *)

Definition wrap64 (z : Z) : Z := (z + 2 ^ 63) mod 2 ^ 64 - 2 ^ 63.

Definition in_int64 (z : Z) : Prop := - 2 ^ 63 <= z < 2 ^ 63.

Definition float64 : Set := float.
Definition bytes : Type := list byte.
Definition error : Type := string.

(** ** google.golang.org/protobuf/types/known/timestamppb and time

    Only what [convertExemplar] and [getTimeseries] call:
    [Timestamp.AsTime] and [Time.UnixMilli]. *)

Module timestamppb.

Record Timestamp : Type := mkTimestamp {
  Seconds : Z;   (* int64 *)
  Nanos : Z      (* int32 *)
}.

Definition GetSeconds (x : option Timestamp) : Z :=
  match x with Some t => Seconds t | None => 0 end.

Definition GetNanos (x : option Timestamp) : Z :=
  match x with Some t => Nanos t | None => 0 end.

End timestamppb.

Module time.

(** A [time.Time] built by [time.Unix]: seconds since the Unix epoch and
    a nanosecond offset in [0, 1e9). *)
Record Time : Type := mkTime {
  unixSec : Z;
  nsec : Z
}.

(** [time.Unix(sec, nsec)]: normalises [nsec] into [0, 1e9).  Go's [/] on
    integers truncates toward zero, hence [Z.quot]. *)
Definition Unix (sec nsec : Z) : Time :=
  if (nsec <? 0) || (1000000000 <=? nsec) then
    let n := Z.quot nsec 1000000000 in
    let sec := wrap64 (sec + n) in
    let nsec := nsec - n * 1000000000 in
    if nsec <? 0
    then mkTime (wrap64 (sec - 1)) (nsec + 1000000000)
    else mkTime sec nsec
  else mkTime sec nsec.

(** [t.UnixMilli()] is [t.unixSec()*1e3 + int64(t.nsec())/1e6]. *)
Definition UnixMilli (t : Time) : Z :=
  wrap64 (wrap64 (unixSec t * 1000) + Z.quot (nsec t) 1000000).

End time.

(** [x.AsTime()] is [time.Unix(int64(x.GetSeconds()), int64(x.GetNanos())).UTC()];
    [UTC] changes the location only. *)
Definition AsTime (x : option timestamppb.Timestamp) : time.Time :=
  time.Unix (timestamppb.GetSeconds x) (timestamppb.GetNanos x).

(** ** github.com/prometheus/client_model/go (imported as [dto]) *)

Module dto.

Record LabelPair : Type := mkLabelPair {
  LabelPair_Name : option string;
  LabelPair_Value : option string
}.

Definition LabelPair_GetName (lp : LabelPair) : string :=
  default "" (LabelPair_Name lp).
Definition LabelPair_GetValue (lp : LabelPair) : string :=
  default "" (LabelPair_Value lp).

Record Exemplar : Type := mkExemplar {
  Exemplar_Label : list LabelPair;
  Exemplar_Value : option float64;
  Exemplar_Timestamp : option timestamppb.Timestamp
}.

(** The accessors take the pointer, which may be nil. *)
Definition Exemplar_GetLabel (e : option Exemplar) : list LabelPair :=
  match e with Some x => Exemplar_Label x | None => [] end.
Definition Exemplar_GetValue (e : option Exemplar) : float64 :=
  match e with Some x => default 0%float (Exemplar_Value x) | None => 0%float end.
Definition Exemplar_GetTimestamp (e : option Exemplar) : option timestamppb.Timestamp :=
  match e with Some x => Exemplar_Timestamp x | None => None end.

Record Gauge : Type := mkGauge {
  Gauge_Value : option float64
}.
Definition Gauge_GetValue (g : Gauge) : float64 := default 0%float (Gauge_Value g).

Record Counter : Type := mkCounter {
  Counter_Value : option float64;
  Counter_Exemplar : option Exemplar;
  Counter_CreatedTimestamp : option timestamppb.Timestamp
}.
Definition Counter_GetValue (c : Counter) : float64 := default 0%float (Counter_Value c).
Definition Counter_GetExemplar (c : Counter) : option Exemplar := Counter_Exemplar c.

Record Untyped : Type := mkUntyped {
  Untyped_Value : option float64
}.
Definition Untyped_GetValue (u : Untyped) : float64 := default 0%float (Untyped_Value u).

Record Quantile : Type := mkQuantile {
  Quantile_Quantile : option float64;
  Quantile_Value : option float64
}.

Record Summary : Type := mkSummary {
  Summary_SampleCount : option Z;
  Summary_SampleSum : option float64;
  Summary_Quantile : list Quantile;
  Summary_CreatedTimestamp : option timestamppb.Timestamp
}.

Record BucketSpan : Type := mkBucketSpan {
  BucketSpan_Offset : option Z;   (* sint32 *)
  BucketSpan_Length : option Z    (* uint32 *)
}.
Definition BucketSpan_GetOffset (s : BucketSpan) : Z := default 0 (BucketSpan_Offset s).
Definition BucketSpan_GetLength (s : BucketSpan) : Z := default 0 (BucketSpan_Length s).

Record Bucket : Type := mkBucket {
  Bucket_CumulativeCount : option Z;
  Bucket_CumulativeCountFloat : option float64;
  Bucket_UpperBound : option float64;
  Bucket_Exemplar : option Exemplar
}.

Record Histogram : Type := mkHistogram {
  Histogram_SampleCount : option Z;
  Histogram_SampleCountFloat : option float64;
  Histogram_SampleSum : option float64;
  Histogram_Bucket : list Bucket;
  Histogram_CreatedTimestamp : option timestamppb.Timestamp;
  Histogram_Schema : option Z;
  Histogram_ZeroThreshold : option float64;
  Histogram_ZeroCount : option Z;
  Histogram_ZeroCountFloat : option float64;
  Histogram_NegativeSpan : list BucketSpan;
  Histogram_NegativeDelta : list Z;
  Histogram_NegativeCount : list float64;
  Histogram_PositiveSpan : list BucketSpan;
  Histogram_PositiveDelta : list Z;
  Histogram_PositiveCount : list float64;
  Histogram_Exemplars : list (option Exemplar)
}.
Definition Histogram_GetSampleSum (h : Histogram) : float64 :=
  default 0%float (Histogram_SampleSum h).
Definition Histogram_GetSchema (h : Histogram) : Z := default 0 (Histogram_Schema h).
Definition Histogram_GetZeroThreshold (h : Histogram) : float64 :=
  default 0%float (Histogram_ZeroThreshold h).

Record Metric : Type := mkMetric {
  Metric_Label : list LabelPair;
  Metric_Gauge : option Gauge;
  Metric_Counter : option Counter;
  Metric_Summary : option Summary;
  Metric_Untyped : option Untyped;
  Metric_Histogram : option Histogram;
  Metric_TimestampMs : option Z
}.
Definition Metric_GetTimestampMs (m : Metric) : Z := default 0 (Metric_TimestampMs m).

(** [MetricType]: COUNTER = 0, GAUGE = 1, SUMMARY = 2, UNTYPED = 3,
    HISTOGRAM = 4, GAUGE_HISTOGRAM = 5 (an [int32]). *)
Definition MetricType : Type := Z.

Record MetricFamily : Type := mkMetricFamily {
  MetricFamily_Name : option string;
  MetricFamily_Help : option string;
  MetricFamily_Type : option MetricType;
  MetricFamily_Metric : list Metric;
  MetricFamily_Unit : option string
}.
Definition MetricFamily_GetName (f : MetricFamily) : string :=
  default "" (MetricFamily_Name f).
Definition MetricFamily_GetHelp (f : MetricFamily) : string :=
  default "" (MetricFamily_Help f).
Definition MetricFamily_GetUnit (f : MetricFamily) : string :=
  default "" (MetricFamily_Unit f).
Definition MetricFamily_GetType (f : MetricFamily) : MetricType :=
  default 0 (MetricFamily_Type f).
Definition MetricFamily_GetMetric (f : MetricFamily) : list Metric :=
  MetricFamily_Metric f.

End dto.

(** ** github.com/prometheus/prometheus/prompb

    The fields the writer sets; the others keep their zero value. *)

Module prompb.

Record Label : Type := mkLabel {
  Label_Name : string;
  Label_Value : string
}.

Record Sample : Type := mkSample {
  Sample_Value : float64;
  Sample_Timestamp : Z
}.

Record Exemplar : Type := mkExemplar {
  Exemplar_Labels : list Label;
  Exemplar_Value : float64;
  Exemplar_Timestamp : Z
}.

Record BucketSpan : Type := mkBucketSpan {
  BucketSpan_Offset : Z;
  BucketSpan_Length : Z
}.

Record Histogram : Type := mkHistogram {
  Histogram_Sum : float64;
  Histogram_Schema : Z;
  Histogram_ZeroThreshold : float64;
  Histogram_NegativeSpans : list BucketSpan;
  Histogram_NegativeDeltas : list Z;
  Histogram_NegativeCounts : list float64;
  Histogram_PositiveSpans : list BucketSpan;
  Histogram_PositiveDeltas : list Z;
  Histogram_PositiveCounts : list float64;
  Histogram_Timestamp : Z
}.

Record TimeSeries : Type := mkTimeSeries {
  Labels : list Label;
  Samples : list Sample;
  Exemplars : list Exemplar;
  Histograms : list Histogram
}.

(** The zero value, what [make([]prompb.TimeSeries, n)] is filled with. *)
Definition TimeSeries_zero : TimeSeries := mkTimeSeries [] [] [] [].

Record MetricMetadata : Type := mkMetricMetadata {
  MetricMetadata_Type : Z;
  MetricFamilyName : string;
  Help : string;
  Unit : string
}.

Record WriteRequest : Type := mkWriteRequest {
  Timeseries : list TimeSeries;
  Metadata : list MetricMetadata
}.

End prompb.

(** ** writer/impl.go: the wire model adapter *)

(** [slices.Map] of go-commonutils applies the function to every element,
    in order. *)
Definition slices_Map {A B : Type} (l : list A) (f : A -> B) : list B := map f l.

Definition convertLabels (dtoLabels : list dto.LabelPair) : list prompb.Label :=
  slices_Map dtoLabels (fun lp =>
    prompb.mkLabel (dto.LabelPair_GetName lp) (dto.LabelPair_GetValue lp)).

Definition convertExemplar (e : option dto.Exemplar) : prompb.Exemplar :=
  prompb.mkExemplar
    (convertLabels (dto.Exemplar_GetLabel e))
    (dto.Exemplar_GetValue e)
    (time.UnixMilli (AsTime (dto.Exemplar_GetTimestamp e))).

Definition convertBucketSpans (spans : list dto.BucketSpan) : list prompb.BucketSpan :=
  slices_Map spans (fun s =>
    prompb.mkBucketSpan (dto.BucketSpan_GetOffset s) (dto.BucketSpan_GetLength s)).

(** The dynamic value held by [samplerMetric any]: one of the three
    pointer types the [switch] stores in it. *)
Inductive any : Type :=
  | AnyGauge (g : dto.Gauge)
  | AnyCounter (c : dto.Counter)
  | AnyUntyped (u : dto.Untyped).

(** The two interfaces of impl.go.  Their methods take no argument, so an
    interface value is the result of its method. *)
Record valued : Type := mkValued { GetValue : float64 }.
Record hasExemplar : Type := mkHasExemplar { GetExemplar : option dto.Exemplar }.

(** [samplerMetric.(valued)]: [*dto.Gauge], [*dto.Counter] and
    [*dto.Untyped] all have a [GetValue() float64] method. *)
Definition assert_valued (x : any) : option valued :=
  match x with
  | AnyGauge g => Some (mkValued (dto.Gauge_GetValue g))
  | AnyCounter c => Some (mkValued (dto.Counter_GetValue c))
  | AnyUntyped u => Some (mkValued (dto.Untyped_GetValue u))
  end.

(** [samplerMetric.(hasExemplar)]: of the three, only [*dto.Counter] has a
    [GetExemplar() *dto.Exemplar] method.  The assertion looks at the
    method set, not at whether the exemplar pointer is nil. *)
Definition assert_hasExemplar (x : any) : option hasExemplar :=
  match x with
  | AnyCounter c => Some (mkHasExemplar (dto.Counter_GetExemplar c))
  | AnyGauge _ | AnyUntyped _ => None
  end.

(** The [switch] of [getTimeseries]: the first non-nil of gauge, counter,
    untyped, histogram decides [(samplerMetric, histogram)]. *)
Definition probe (metric : dto.Metric) : option any * option dto.Histogram :=
  match dto.Metric_Gauge metric with
  | Some g => (Some (AnyGauge g), None)
  | None =>
    match dto.Metric_Counter metric with
    | Some c => (Some (AnyCounter c), None)
    | None =>
      match dto.Metric_Untyped metric with
      | Some u => (Some (AnyUntyped u), None)
      | None =>
        match dto.Metric_Histogram metric with
        | Some h => (None, Some h)
        | None => (None, None)
        end
      end
    end
  end.

Definition convertHistogram (histogram : dto.Histogram) : prompb.Histogram :=
  prompb.mkHistogram
    (dto.Histogram_GetSampleSum histogram)
    (dto.Histogram_GetSchema histogram)
    (dto.Histogram_GetZeroThreshold histogram)
    (convertBucketSpans (dto.Histogram_NegativeSpan histogram))
    (dto.Histogram_NegativeDelta histogram)
    (dto.Histogram_NegativeCount histogram)
    (convertBucketSpans (dto.Histogram_PositiveSpan histogram))
    (dto.Histogram_PositiveDelta histogram)
    (dto.Histogram_PositiveCount histogram)
    (time.UnixMilli (AsTime (dto.Histogram_CreatedTimestamp histogram))).

(** The body of the [for i, metric := range family.GetMetric()] loop: the
    value stored in [ts[i]]. *)
Definition getTimeseries_body (family : dto.MetricFamily) (metric : dto.Metric)
  : prompb.TimeSeries :=
  let prompbLabels := convertLabels (dto.Metric_Label metric) in
  let prompbLabels :=
    prompbLabels ++ [prompb.mkLabel "__name__" (dto.MetricFamily_GetName family)] in
  let '(samplerMetric, histogram) := probe metric in
  let samples : list prompb.Sample := [] in
  let exemplars : list prompb.Exemplar := [] in
  let histograms : list prompb.Histogram := [] in
  let '(samples, exemplars) :=
    match samplerMetric with
    | Some sm =>
      let samples :=
        match assert_valued sm with
        | Some v =>
          samples ++ [prompb.mkSample (GetValue v) (dto.Metric_GetTimestampMs metric)]
        | None => samples
        end in
      let exemplars :=
        match assert_hasExemplar sm with
        | Some e => exemplars ++ [convertExemplar (GetExemplar e)]
        | None => exemplars
        end in
      (samples, exemplars)
    | None => (samples, exemplars)
    end in
  let '(samples, exemplars, histograms) :=
    match histogram with
    | Some h =>
      ([], slices_Map (dto.Histogram_Exemplars h) convertExemplar,
       histograms ++ [convertHistogram h])
    | None => (samples, exemplars, histograms)
    end in
  prompb.mkTimeSeries prompbLabels samples exemplars histograms.

(** [for i, x := range l { s = body i x s }], counting from [i]. *)
Fixpoint range_from {A St : Type} (body : nat -> A -> St -> St)
    (i : nat) (l : list A) (s : St) : St :=
  match l with
  | [] => s
  | x :: l' => range_from body (S i) l' (body i x s)
  end.

(** [getTimeseries]: a slice of [len(family.GetMetric())] zero series is
    allocated and slot [i] is assigned in the loop. *)
Definition getTimeseries (family : dto.MetricFamily) : list prompb.TimeSeries :=
  match dto.MetricFamily_GetMetric family with
  | [] => []
  | metrics =>
    let ts := replicate (length metrics) prompb.TimeSeries_zero in
    range_from (fun i metric ts => <[i := getTimeseries_body family metric]> ts)
      0%nat metrics ts
  end.

(** ** Results of fallible calls

    A Go call returning [(T, error)] under the usual contract: the value is
    meaningful exactly when the error is nil. *)
Inductive result (A : Type) : Type :=
  | Ok (a : A)
  | Err (e : error).
Arguments Ok {A} a.
Arguments Err {A} e.

(** ** net/http: what the writer touches *)

Module http.

(** [http.Header] is a [map[string][]string].  The three keys the writer
    uses are already in canonical form, so [Add] and [Set] use them as
    they are. *)
Definition Header : Type := gmap string (list string).

Definition Header_Add (key value : string) (h : Header) : Header :=
  <[key := default [] (h !! key) ++ [value]]> h.

Definition Header_Set (key value : string) (h : Header) : Header :=
  <[key := [value]]> h.

Record Request (Ctx : Type) : Type := mkRequest {
  Request_ctx : Ctx;
  Request_Method : string;
  Request_URL : string;
  Request_Header : Header;
  Request_Body : bytes
}.
Arguments mkRequest {Ctx}.
Arguments Request_ctx {Ctx}.
Arguments Request_Method {Ctx}.
Arguments Request_URL {Ctx}.
Arguments Request_Header {Ctx}.
Arguments Request_Body {Ctx}.

Definition with_Header {Ctx : Type} (f : Header -> Header) (req : Request Ctx)
  : Request Ctx :=
  mkRequest (Request_ctx req) (Request_Method req) (Request_URL req)
    (f (Request_Header req)) (Request_Body req).

Record Response : Type := mkResponse {
  Status : string;      (* e.g. "200 OK" *)
  StatusCode : Z        (* e.g. 200 *)
}.

Definition MethodPost : string := "POST".

End http.

(** ** io.Writer and bytes.Buffer *)

(** [Write(p []byte) (n int, err error)] on a writer in state [W]. *)
Class io_Writer (W : Type) : Type :=
  io_Write : W -> bytes -> W * (Z * option error).

Record bytes_Buffer : Type := mkBuffer { Buffer_Bytes : bytes }.

(** [Write] on a [bytes.Buffer] appends [p] and returns [len(p), nil]; the
    error is always nil (it panics with [ErrTooLarge] when memory runs out, which
    is not an error return). *)
#[export] Instance Buffer_Write : io_Writer bytes_Buffer :=
  fun b p => (mkBuffer (Buffer_Bytes b ++ p), (Z.of_nat (length p), None)).

(** ** What the writer calls and this repository does not define *)

Class Externals : Type := {
  (** [context.Context] and [prometheus.Gatherer] *)
  context_Context : Type;
  Gatherer : Type;
  (** [prometheus.Gatherers.Gather] *)
  Gatherers_Gather : list Gatherer -> result (list dto.MetricFamily);
  (** [prompb.WriteRequest.Marshal] and [json.Marshal] *)
  WriteRequest_Marshal : prompb.WriteRequest -> result bytes;
  json_Marshal : prompb.WriteRequest -> result bytes;
  (** [snappy.Encode(nil, data)] *)
  snappy_Encode : bytes -> bytes;
  (** compress/flate at the default level: the state of the compressor,
      the chunks [Write] and [Close] hand to the underlying writer *)
  flate_Writer : Type;
  flate_NewWriter : flate_Writer;
  flate_Write : flate_Writer -> bytes -> flate_Writer * list bytes;
  flate_Close : flate_Writer -> list bytes;
  (** [crc32.Update(crc, crc32.IEEETable, p)] *)
  crc32_Update : Z -> bytes -> Z;
  (** [http.NewRequestWithContext] *)
  http_NewRequestWithContext :
    context_Context -> string -> string -> bytes -> result (http.Request context_Context)
}.

Definition byte_of_Z (z : Z) : byte :=
  default x00 (Byte.of_N (Z.to_N (z mod 256))).

(** [binary.LittleEndian.PutUint32] *)
Definition le_PutUint32 (v : Z) : bytes :=
  [byte_of_Z v; byte_of_Z (v / 2 ^ 8); byte_of_Z (v / 2 ^ 16); byte_of_Z (v / 2 ^ 24)].

(** Writes the chunks in turn and stops at the first error, as a
    compressor flushing its blocks into the underlying writer does. *)
Fixpoint write_all {W : Type} `{!io_Writer W} (w : W) (chunks : list bytes)
  : W * option error :=
  match chunks with
  | [] => (w, None)
  | c :: cs =>
    let '(w', (_, e)) := io_Write w c in
    match e with
    | Some e => (w', Some e)
    | None => write_all w' cs
    end
  end.

Section writer.

Context `{ext : Externals}.

(** ** compress/gzip: [NewWriter], [Write] and [Close]

    The writer as [gzip.NewWriter] builds it: default compression level,
    no [Extra], [Name] or [Comment], zero [ModTime], [OS] 255.  Every
    error comes from a [Write] of the underlying writer and is sticky. *)

Record gzip_Writer (W : Type) : Type := mkGzipWriter {
  gz_w : W;
  gz_wroteHeader : bool;
  gz_closed : bool;
  gz_err : option error;
  gz_size : Z;                  (* uint32 *)
  gz_digest : Z;                (* uint32, CRC-32 *)
  gz_compressor : flate_Writer
}.
Arguments mkGzipWriter {W}.
Arguments gz_w {W}.
Arguments gz_wroteHeader {W}.
Arguments gz_closed {W}.
Arguments gz_err {W}.
Arguments gz_size {W}.
Arguments gz_digest {W}.
Arguments gz_compressor {W}.

Definition gzip_NewWriter {W : Type} (w : W) : gzip_Writer W :=
  mkGzipWriter w false false None 0 0 flate_NewWriter.

(** ID1, ID2, CM = deflate, FLG, MTIME (4 bytes), XFL, OS *)
Definition gzip_header : bytes :=
  [x1f; x8b; x08; x00; x00; x00; x00; x00; x00; xff].

Definition gzip_Write {W : Type} `{!io_Writer W} (z : gzip_Writer W) (p : bytes)
  : gzip_Writer W * (Z * option error) :=
  match gz_err z with
  | Some e => (z, (0, Some e))
  | None =>
    let z :=
      if gz_wroteHeader z then z
      else
        let '(w', (_, e)) := io_Write (gz_w z) gzip_header in
        mkGzipWriter w' true (gz_closed z) e (gz_size z) (gz_digest z)
          (gz_compressor z) in
    match gz_err z with
    | Some e => (z, (0, Some e))
    | None =>
      let size := (gz_size z + Z.of_nat (length p)) mod 2 ^ 32 in
      let digest := crc32_Update (gz_digest z) p in
      let '(c', chunks) := flate_Write (gz_compressor z) p in
      let '(w', e) := write_all (gz_w z) chunks in
      let n := match e with Some _ => 0 | None => Z.of_nat (length p) end in
      (mkGzipWriter w' true (gz_closed z) e size digest c', (n, e))
    end
  end.

Definition gzip_Close {W : Type} `{!io_Writer W} (z : gzip_Writer W)
  : gzip_Writer W * option error :=
  match gz_err z with
  | Some e => (z, Some e)
  | None =>
    if gz_closed z then (z, None)
    else
      let z := mkGzipWriter (gz_w z) (gz_wroteHeader z) true (gz_err z)
                 (gz_size z) (gz_digest z) (gz_compressor z) in
      let z := if gz_wroteHeader z then z else fst (gzip_Write z []) in
      match gz_err z with
      | Some e => (z, Some e)
      | None =>
        let '(w', e) := write_all (gz_w z) (flate_Close (gz_compressor z)) in
        match e with
        | Some e =>
          (mkGzipWriter w' true true (Some e) (gz_size z) (gz_digest z)
             (gz_compressor z), Some e)
        | None =>
          let '(w'', (_, e)) :=
            io_Write w' (le_PutUint32 (gz_digest z) ++ le_PutUint32 (gz_size z)) in
          (mkGzipWriter w'' true true e (gz_size z) (gz_digest z)
             (gz_compressor z), e)
        end
      end
  end.

(** ** writer/writer.go and writer/outputs.go *)

(** [type Format int], [Protobuf Format = iota + 1], [JSON]. *)
Definition Format : Type := Z.
Definition Protobuf : Format := 1.
Definition JSON : Format := 2.

(** [type Compression int], [None Compression = iota], [Snappy], [Gzip].
    The constant [None] is [Compression_None] here. *)
Definition Compression : Type := Z.
Definition Compression_None : Compression := 0.
Definition Snappy : Compression := 1.
Definition Gzip : Compression := 2.

Definition Format_String (f : Format) : string :=
  if f =? Protobuf then "protobuf"
  else if f =? JSON then "json"
  else "%INVALID!(" +:+ pretty f +:+ ")".

Definition Format_Marshal (f : Format) (wr : prompb.WriteRequest) : result bytes :=
  if f =? Protobuf then WriteRequest_Marshal wr
  else if f =? JSON then json_Marshal wr
  else Err ("unrecognized format " +:+ Format_String f).

Definition Format_UpdateRequest (f : Format) (req : http.Request context_Context)
  : http.Request context_Context :=
  let contentType := "application/octet-stream" in
  let contentType :=
    if f =? Protobuf then "application/x-protobuf"
    else if f =? JSON then "application/json"
    else contentType in
  http.with_Header (http.Header_Set "Content-Type" contentType) req.

Definition Compression_String (e : Compression) : string :=
  if e =? Compression_None then "none"
  else if e =? Snappy then "snappy"
  else if e =? Gzip then "gzip"
  else "%INVALID!(" +:+ pretty e +:+ ")".

Definition Compress (e : Compression) (data : bytes) : result bytes :=
  if e =? Compression_None then Ok data
  else if e =? Snappy then Ok (snappy_Encode data)
  else if e =? Gzip then
    let buf := mkBuffer [] in
    let w := gzip_NewWriter buf in
    let '(w, (_, err)) := gzip_Write w data in
    match err with
    | Some err => Err err
    | None =>
      let '(w, _) := gzip_Close w in
      Ok (Buffer_Bytes (gz_w w))
    end
  else Err ("unsupported encoding " +:+ Compression_String e).

Definition Compression_UpdateRequest (e : Compression)
    (req : http.Request context_Context) : http.Request context_Context :=
  if e =? Compression_None then req
  else http.with_Header (http.Header_Set "Content-Encoding" (Compression_String e)) req.

(** [*http.Client]: its [Do] method. *)
Definition http_Client : Type :=
  http.Request context_Context -> result http.Response.

Record writerImpl : Type := mkWriterImpl {
  hc : http_Client;
  targetURL : string;
  gatherers : list Gatherer;
  format : Format;
  encoding : Compression;
  version : string
}.

(** writer/constants.go *)
Definition ErrNilContext : error := "nil context passed".
Definition ErrNoGatherersDefined : error := "no gatherers were defined".

(** ** writer/impl.go: [WriteMetrics]

    The calls [WriteMetrics] makes to its collaborators, in order, are
    recorded next to the pair it returns. *)
Inductive Event : Type :=
  | EvGather (gs : list Gatherer)
  | EvMarshal (f : Format) (wr : prompb.WriteRequest)
  | EvCompress (e : Compression) (data : bytes)
  | EvNewRequest (method url : string) (body : bytes)
  | EvDo (req : http.Request context_Context) (r : result http.Response)
  | EvBodyClose (resp : http.Response).

(** The [for _, metricsFamily := range metricFamilies] loop, from empty
    [ts] and [metadata]. *)
Definition collect (metricFamilies : list dto.MetricFamily)
  : list prompb.TimeSeries * list prompb.MetricMetadata :=
  foldl (fun '(ts, metadata) metricsFamily =>
           let metadata :=
             metadata ++ [prompb.mkMetricMetadata
                            (dto.MetricFamily_GetType metricsFamily)
                            (dto.MetricFamily_GetName metricsFamily)
                            (dto.MetricFamily_GetHelp metricsFamily)
                            (dto.MetricFamily_GetUnit metricsFamily)] in
           let ts := ts ++ getTimeseries metricsFamily in
           (ts, metadata))
        ([], []) metricFamilies.

(** [fmt.Errorf("expected 2xx HTTP code, but got %s", resp.Status)] *)
Definition rejected (resp : http.Response) : error :=
  "expected 2xx HTTP code, but got " +:+ http.Status resp.

Definition WriteMetrics (w : writerImpl) (ctx : option context_Context)
  : list Event * (Z * option error) :=
  match ctx with
  | None => ([], (0, Some ErrNilContext))
  | Some ctx =>
    if Z.of_nat (length (gatherers w)) =? 0 then ([], (0, Some ErrNoGatherersDefined))
    else
      let tr := [EvGather (gatherers w)] in
      match Gatherers_Gather (gatherers w) with
      | Err err => (tr, (0, Some err))
      | Ok metricFamilies =>
        if Z.of_nat (length metricFamilies) =? 0 then (tr, (0, None))
        else
          let '(ts, metadata) := collect metricFamilies in
          let wr := prompb.mkWriteRequest ts metadata in
          let tr := tr ++ [EvMarshal (format w) wr] in
          match Format_Marshal (format w) wr with
          | Err err => (tr, (0, Some err))
          | Ok uncompressed =>
            let tr := tr ++ [EvCompress (encoding w) uncompressed] in
            match Compress (encoding w) uncompressed with
            | Err err => (tr, (0, Some err))
            | Ok compressed =>
              let tr := tr ++ [EvNewRequest http.MethodPost (targetURL w) compressed] in
              match http_NewRequestWithContext ctx http.MethodPost (targetURL w)
                      compressed with
              | Err err => (tr, (0, Some err))
              | Ok req =>
                let req :=
                  http.with_Header
                    (http.Header_Add "X-Prometheus-Remote-Write-Version" (version w))
                    req in
                let req := Format_UpdateRequest (format w) req in
                let req := Compression_UpdateRequest (encoding w) req in
                let tr := tr ++ [EvDo req (hc w req)] in
                match hc w req with
                | Err err => (tr, (0, Some err))
                | Ok resp =>
                  let tr := tr ++ [EvBodyClose resp] in
                  if (http.StatusCode resp <? 200) || (299 <? http.StatusCode resp)
                  then (tr, (0, Some (rejected resp)))
                  else (tr, (Z.of_nat (length ts), None))
                end
              end
            end
          end
      end
  end.

(** The families [WriteMetrics] works on: what the gather returned. *)
Definition gathered (w : writerImpl) : list dto.MetricFamily :=
  match Gatherers_Gather (gatherers w) with
  | Ok metricFamilies => metricFamilies
  | Err _ => []
  end.

(** The number of metric instances of a list of families. *)
Definition instances (metricFamilies : list dto.MetricFamily) : nat :=
  sum_list (map (fun f => length (dto.MetricFamily_GetMetric f)) metricFamilies).

End writer.

Arguments gzip_Writer {ext} W.
Arguments mkGzipWriter {ext W}.
Arguments gz_w {ext W}.
Arguments gz_wroteHeader {ext W}.
Arguments gz_closed {ext W}.
Arguments gz_err {ext W}.
Arguments gz_size {ext W}.
Arguments gz_digest {ext W}.
Arguments gz_compressor {ext W}.
Arguments writerImpl {ext}.
Arguments Event {ext}.

(** ** The scenario of writer_test.go

    One counter (0.5), one gauge (1.0) with two constant labels and one
    histogram that observed 0.35 (the nearest float64), gathered from a custom registry; the
    collaborators are the simplest ones that behave as the test server
    does. *)

Module Scenario.

Definition label (n v : string) : dto.LabelPair := dto.mkLabelPair (Some n) (Some v).

Definition counter_metric : dto.Metric :=
  dto.mkMetric [] None (Some (dto.mkCounter (Some 0.5%float) None None))
    None None None None.

Definition gauge_metric : dto.Metric :=
  dto.mkMetric [label "label1" "value1"; label "label2" "value2"]
    (Some (dto.mkGauge (Some 1%float))) None None None None None.

Definition histogram : dto.Histogram :=
  dto.mkHistogram (Some 1) None (Some 0x1.6666666666666p-2%float) [] None
    None None None None [] [] [] [] [] [] [].

Definition histogram_metric : dto.Metric :=
  dto.mkMetric [label "label1" "value1"; label "label2" "value2"]
    None None None None (Some histogram) None.

Definition counter_family : dto.MetricFamily :=
  dto.mkMetricFamily (Some "foo_bar_baz") (Some "quxx") (Some 0) [counter_metric] None.
Definition gauge_family : dto.MetricFamily :=
  dto.mkMetricFamily (Some "foo_bar_wbbl") (Some "asf") (Some 1) [gauge_metric] None.
Definition histogram_family : dto.MetricFamily :=
  dto.mkMetricFamily (Some "foo_hist_testhist") (Some "") (Some 4)
    [histogram_metric] None.
Definition empty_family : dto.MetricFamily :=
  dto.mkMetricFamily (Some "unused") None (Some 1) [] None.

Definition families : list dto.MetricFamily :=
  [counter_family; gauge_family; empty_family; histogram_family].

(** A gatherer is the snapshot it returns; requests are built for every
    URL; a payload is marshalled to one byte per series; the compressor
    stores its input in a single block. *)
#[export] Instance ext : Externals := {|
  context_Context := unit;
  Gatherer := list dto.MetricFamily;
  Gatherers_Gather := fun gs => Ok (concat gs);
  WriteRequest_Marshal := fun wr => Ok (replicate (length (prompb.Timeseries wr)) x01);
  json_Marshal := fun wr => Ok (replicate (length (prompb.Timeseries wr)) x7b);
  snappy_Encode := fun data => data;
  flate_Writer := unit;
  flate_NewWriter := tt;
  flate_Write := fun _ p => (tt, [p]);
  flate_Close := fun _ => [[x03; x00]];
  crc32_Update := fun crc _ => crc;
  http_NewRequestWithContext := fun ctx method url body =>
    Ok (http.mkRequest ctx method url ∅ body)
|}.

(** A transport that answers every request with the given status. *)
Definition answering (code : Z) (status : string) : http_Client :=
  fun _ => Ok (http.mkResponse status code).

Definition writer_of (client : http_Client) (gs : list Gatherer) : writerImpl :=
  mkWriterImpl client "http://127.0.0.1/receive" gs JSON Gzip "0.1.0".

Definition w_ok : writerImpl := writer_of (answering 200 "200 OK") [families].
Definition w_500 : writerImpl :=
  writer_of (answering 500 "500 Internal Server Error") [families].
Definition w_empty : writerImpl := writer_of (answering 200 "200 OK") [[]].

End Scenario.

(** ** The two type enumerations

    The names of the values, from the generated code of client_model
    ([dto.MetricType]) and of prompb ([MetricMetadata_MetricType]);
    [WriteMetrics] converts one into the other by its number. *)

Definition dto_MetricType_name (t : Z) : option string :=
  match t with
  | 0 => Some "COUNTER"
  | 1 => Some "GAUGE"
  | 2 => Some "SUMMARY"
  | 3 => Some "UNTYPED"
  | 4 => Some "HISTOGRAM"
  | 5 => Some "GAUGE_HISTOGRAM"
  | _ => None
  end.

Definition prompb_MetricType_name (t : Z) : option string :=
  match t with
  | 0 => Some "UNKNOWN"
  | 1 => Some "COUNTER"
  | 2 => Some "GAUGE"
  | 3 => Some "HISTOGRAM"
  | 4 => Some "GAUGEHISTOGRAM"
  | 5 => Some "SUMMARY"
  | 6 => Some "INFO"
  | 7 => Some "STATESET"
  | _ => None
  end.

(** ** writer/writer.go: [NewRemoteMetricsWriter] *)

Section constructor.

Context `{ext : Externals}.

(** [strings.TrimSpace], [http.DefaultClient] and
    [prometheus.DefaultGatherer]. *)
Variable strings_TrimSpace : string -> string.
Variable http_DefaultClient : http_Client.
Variable prometheus_DefaultGatherer : Gatherer.

Definition DefaultRemoteWriteVersion : string := "0.1.0".

Record RemoteMetricsWriterOptions : Type := mkOptions {
  HTTPClient : option http_Client;      (* a [*http.Client], nil when not set *)
  Options_Format : Format;
  Options_Compression : Compression;
  RemoteWriteVersion : string
}.

(** The variadic [gatherers] is nil when the call passes none, and the
    slice itself when the call spreads one, hence the [option]. *)
Definition NewRemoteMetricsWriter (targetURL : string)
    (options : RemoteMetricsWriterOptions) (gatherers : option (list Gatherer))
  : result writerImpl :=
  if decide (strings_TrimSpace targetURL = "") then
    Err "options.TargetURL must be set"
  else
    let HTTPClient :=
      match HTTPClient options with
      | None => http_DefaultClient
      | Some client => client
      end in
    let Format :=
      if Options_Format options =? 0 then Protobuf else Options_Format options in
    let gatherers :=
      match gatherers with
      | None => [prometheus_DefaultGatherer]
      | Some gs => gs
      end in
    let RemoteWriteVersion :=
      if decide (strings_TrimSpace (RemoteWriteVersion options) = "")
      then DefaultRemoteWriteVersion
      else RemoteWriteVersion options in
    Ok (mkWriterImpl HTTPClient targetURL gatherers Format
          (Options_Compression options) RemoteWriteVersion).

End constructor.

(** ** A construction scenario

    [strings.TrimSpace] on ASCII strings, where white space is tab, line
    feed, vertical tab, form feed, carriage return and space. *)

Module Construction.

Definition is_ascii_space (a : Ascii.ascii) : bool :=
  let n := Ascii.nat_of_ascii a in
  (n =? 32)%nat || ((9 <=? n)%nat && (n <=? 13)%nat).

Fixpoint trim_left (s : string) : string :=
  match s with
  | String a s' => if is_ascii_space a then trim_left s' else s
  | EmptyString => EmptyString
  end.

Definition TrimSpace (s : string) : string :=
  String.rev (trim_left (String.rev (trim_left s))).

Definition default_client : @http_Client Scenario.ext :=
  Scenario.answering 204 "204 No Content".

Definition default_gatherer : @Gatherer Scenario.ext := Scenario.families.

Definition zero_options : @RemoteMetricsWriterOptions Scenario.ext :=
  mkOptions None 0 0 "".

Definition New := NewRemoteMetricsWriter TrimSpace default_client default_gatherer.

End Construction.

(** ** More instances

    A summary, an instance with several payload fields set, an untyped
    value, a counter with an exemplar and a native histogram with spans,
    exemplars and a creation time. *)

Module Cases.

Definition summary_metric : dto.Metric :=
  dto.mkMetric [Scenario.label "job" "api"] None None
    (Some (dto.mkSummary (Some 4) (Some 2%float) [] None)) None None (Some 1700000000000).

Definition exemplar : dto.Exemplar :=
  dto.mkExemplar [Scenario.label "trace_id" "abc"] (Some 3%float)
    (Some (timestamppb.mkTimestamp 1700000000 999999999)).

Definition early_exemplar : dto.Exemplar :=
  dto.mkExemplar [] (Some 1%float) (Some (timestamppb.mkTimestamp (-1) 999500000)).

Definition counter_metric : dto.Metric :=
  dto.mkMetric [] None (Some (dto.mkCounter (Some 7%float) (Some exemplar) None))
    None None None (Some 1700000000123).

Definition untyped_metric : dto.Metric :=
  dto.mkMetric [] None None None (Some (dto.mkUntyped (Some 5%float))) None None.

Definition native_histogram : dto.Histogram :=
  dto.mkHistogram (Some 3) None (Some 6%float) []
    (Some (timestamppb.mkTimestamp 1700000000 1500000))
    (Some 3) (Some 0.5%float) (Some 0) None
    [dto.mkBucketSpan (Some (-2)) (Some 1)] [1] []
    [dto.mkBucketSpan (Some 0) (Some 2); dto.mkBucketSpan None (Some 1)] [1; 0; -1] []
    [Some exemplar; None; Some early_exemplar].

Definition histogram_metric : dto.Metric :=
  dto.mkMetric [] None None None None (Some native_histogram) None.

(** Gauge, counter and histogram all set: the gauge is probed first. *)
Definition mixed_metric : dto.Metric :=
  dto.mkMetric [] (Some (dto.mkGauge (Some 2%float)))
    (Some (dto.mkCounter (Some 7%float) (Some exemplar) None))
    None None (Some native_histogram) None.

Definition family : dto.MetricFamily :=
  dto.mkMetricFamily (Some "requests") (Some "help") (Some 2)
    [summary_metric; counter_metric; untyped_metric; histogram_metric; mixed_metric]
    (Some "seconds").

End Cases.

(** ** Writers of the test scenario with other settings *)

Module Variants.

Definition writer (f : Format) (e : Compression) : @writerImpl Scenario.ext :=
  mkWriterImpl (Scenario.answering 200 "200 OK") "http://127.0.0.1/receive"
    [Scenario.families] f e "0.1.0".

(** The first test: protobuf and snappy. *)
Definition w_protobuf_snappy : @writerImpl Scenario.ext := writer Protobuf Snappy.
Definition w_format7 : @writerImpl Scenario.ext := writer 7 Snappy.
Definition w_encoding9 : @writerImpl Scenario.ext := writer JSON 9.

End Variants.

(** ** Proof steps for [WriteMetrics] *)

(** Splits a run of [WriteMetrics] into its return sites, naming the
    gathered families and the series built from them. *)
Ltac write_metrics_cases H fams ts Hfams Hts :=
  unfold WriteMetrics in H;
  destruct (Gatherers_Gather (gatherers _)) as [fams|?] eqn:Hfams;
  [destruct (collect fams) as [ts ?] eqn:Hts|];
  repeat case_match; simplify_eq.

Ltac event_cases Hin :=
  simpl in Hin; repeat (destruct Hin as [Hin|Hin]; simplify_eq); try done.

(** * Properties *)

(** ** The indexed loop of [getTimeseries] *)

Lemma take_S_insert {B : Type} (ts : list B) (i : nat) (v : B) :
  (i < length ts)%nat -> take (S i) (<[i := v]> ts) = take i ts ++ [v].
Proof.
  intros Hi. erewrite take_S_r.
  - by rewrite take_insert_ge by lia.
  - by apply list_lookup_insert_eq.
Qed.

(** Assigning slots [i], [i+1], ... of [ts] from [l] keeps what is before
    and after and puts the images of [l] in between. *)
Lemma range_from_insert {A B : Type} (f : A -> B) (l : list A) :
  forall (i : nat) (ts : list B),
    (i + length l <= length ts)%nat ->
    range_from (fun i x ts => <[i := f x]> ts) i l ts
    = take i ts ++ map f l ++ drop (i + length l) ts.
Proof.
  induction l as [|x l IH]; intros i ts Hlen; simpl in *.
  - by rewrite Nat.add_0_r, take_drop.
  - rewrite IH by (rewrite length_insert; lia).
    rewrite drop_insert_lt by lia.
    rewrite take_S_insert by lia.
    rewrite <- app_assoc. simpl.
    by replace (S (i + length l)) with (i + S (length l))%nat by lia.
Qed.

Lemma getTimeseries_map (family : dto.MetricFamily) :
  getTimeseries family
  = map (getTimeseries_body family) (dto.MetricFamily_GetMetric family).
Proof.
  unfold getTimeseries.
  destruct (dto.MetricFamily_GetMetric family) as [|m ms] eqn:E; [done|].
  rewrite range_from_insert by (rewrite length_replicate; lia).
  rewrite take_0, drop_ge by (rewrite length_replicate; simpl; lia).
  by rewrite app_nil_r.
Qed.

Lemma getTimeseries_length (family : dto.MetricFamily) :
  length (getTimeseries family) = length (dto.MetricFamily_GetMetric family).
Proof. by rewrite getTimeseries_map, length_map. Qed.

Lemma getTimeseries_lookup (family : dto.MetricFamily) (i : nat) (metric : dto.Metric) :
  dto.MetricFamily_GetMetric family !! i = Some metric ->
  getTimeseries family !! i = Some (getTimeseries_body family metric).
Proof.
  intros Hi. rewrite getTimeseries_map.
  change (map ?f ?l) with (f <$> l). by rewrite list_lookup_fmap, Hi.
Qed.

(** ** The payload of one series, by the outcome of the probe *)

Lemma body_scalar family metric sm :
  probe metric = (Some sm, None) ->
  prompb.Samples (getTimeseries_body family metric)
    = match assert_valued sm with
      | Some v => [prompb.mkSample (GetValue v) (dto.Metric_GetTimestampMs metric)]
      | None => []
      end
  /\ prompb.Exemplars (getTimeseries_body family metric)
    = match assert_hasExemplar sm with
      | Some e => [convertExemplar (GetExemplar e)]
      | None => []
      end
  /\ prompb.Histograms (getTimeseries_body family metric) = [].
Proof.
  intros Hp. unfold getTimeseries_body. rewrite Hp. simpl.
  by destruct (assert_valued sm), (assert_hasExemplar sm).
Qed.

Lemma body_histogram family metric h :
  probe metric = (None, Some h) ->
  prompb.Samples (getTimeseries_body family metric) = []
  /\ prompb.Exemplars (getTimeseries_body family metric)
     = map convertExemplar (dto.Histogram_Exemplars h)
  /\ prompb.Histograms (getTimeseries_body family metric) = [convertHistogram h].
Proof. intros Hp. unfold getTimeseries_body. by rewrite Hp. Qed.

Lemma body_empty family metric :
  probe metric = (None, None) ->
  prompb.Samples (getTimeseries_body family metric) = []
  /\ prompb.Exemplars (getTimeseries_body family metric) = []
  /\ prompb.Histograms (getTimeseries_body family metric) = [].
Proof. intros Hp. unfold getTimeseries_body. by rewrite Hp. Qed.

Lemma probe_cases (metric : dto.Metric) :
  (exists sm, probe metric = (Some sm, None))
  \/ (exists h, probe metric = (None, Some h))
  \/ probe metric = (None, None).
Proof.
  unfold probe.
  destruct (dto.Metric_Gauge metric); [left; eauto|].
  destruct (dto.Metric_Counter metric); [left; eauto|].
  destruct (dto.Metric_Untyped metric); [left; eauto|].
  destruct (dto.Metric_Histogram metric); [right; left; eauto|by right; right].
Qed.

(** Every scalar gives one sample with its value and the timestamp of the
    instance. *)
Lemma body_scalar_sample family metric sm :
  probe metric = (Some sm, None) ->
  exists v, assert_valued sm = Some v
    /\ prompb.Samples (getTimeseries_body family metric)
       = [prompb.mkSample (GetValue v) (dto.Metric_GetTimestampMs metric)].
Proof.
  intros Hp. destruct (body_scalar family metric sm Hp) as (Hs & _ & _).
  destruct sm; simpl in *; eauto.
Qed.

(** A counter always gives one exemplar, converted from its exemplar
    pointer, nil or not; a gauge or an untyped value gives none. *)
Lemma body_counter_exemplar family metric c :
  probe metric = (Some (AnyCounter c), None) ->
  prompb.Exemplars (getTimeseries_body family metric)
  = [convertExemplar (dto.Counter_Exemplar c)].
Proof. intros Hp. by destruct (body_scalar family metric _ Hp) as (_ & He & _). Qed.

(** C7: the labels of the series of an instance are the instance's labels,
    each converted to (name, value) in the original order, followed by one
    label named __name__ whose value is the family's name, as the last
    element. *)
Theorem getTimeseries_labels
    (family : dto.MetricFamily) (i : nat) (metric : dto.Metric) :
  dto.MetricFamily_GetMetric family !! i = Some metric ->
  exists ts,
    getTimeseries family !! i = Some ts
    /\ prompb.Labels ts
       = map (fun lp => prompb.mkLabel (dto.LabelPair_GetName lp) (dto.LabelPair_GetValue lp))
           (dto.Metric_Label metric)
         ++ [prompb.mkLabel "__name__" (dto.MetricFamily_GetName family)]
    /\ length (prompb.Labels ts) = S (length (dto.Metric_Label metric))
    /\ last (prompb.Labels ts)
       = Some (prompb.mkLabel "__name__" (dto.MetricFamily_GetName family))
    /\ (forall (j : nat) (n v : string),
          dto.Metric_Label metric !! j = Some (dto.mkLabelPair (Some n) (Some v)) ->
          prompb.Labels ts !! j = Some (prompb.mkLabel n v)).
Proof.
  intros Hi. exists (getTimeseries_body family metric).
  split; [by apply getTimeseries_lookup|].
  assert (prompb.Labels (getTimeseries_body family metric)
          = convertLabels (dto.Metric_Label metric)
            ++ [prompb.mkLabel "__name__" (dto.MetricFamily_GetName family)]) as ->.
  { unfold getTimeseries_body. destruct (probe metric) as [[sm|] [h|]]; simpl; try done;
      by destruct (assert_valued sm), (assert_hasExemplar sm). }
  unfold convertLabels, slices_Map. repeat split.
  - rewrite length_app, length_map. simpl. lia.
  - by rewrite last_snoc.
  - intros j n v Hj. rewrite lookup_app_l.
    + change (map ?f ?l) with (f <$> l). by rewrite list_lookup_fmap, Hj.
    + rewrite length_map. by eapply lookup_lt_Some.
Qed.

Lemma getTimeseries_labels_witness :
  exists ts,
    getTimeseries Scenario.gauge_family !! 0%nat = Some ts
    /\ prompb.Labels ts
       = [prompb.mkLabel "label1" "value1"; prompb.mkLabel "label2" "value2";
          prompb.mkLabel "__name__" "foo_bar_wbbl"].
Proof.
  destruct (getTimeseries_labels Scenario.gauge_family 0 Scenario.gauge_metric eq_refl)
    as (ts & Hts & Hl & _).
  exists ts. split; [exact Hts | exact Hl].
Defined.

(** C4: a series never has both samples and histogram entries.  An
    instance whose payload is a histogram (no gauge, counter or untyped
    value present) has no samples and exactly one histogram entry; an
    instance with a scalar payload has no histogram entry. *)
Theorem getTimeseries_samples_xor_histograms
    (family : dto.MetricFamily) (i : nat) (metric : dto.Metric) :
  dto.MetricFamily_GetMetric family !! i = Some metric ->
  exists ts,
    getTimeseries family !! i = Some ts
    /\ (prompb.Samples ts = [] \/ prompb.Histograms ts = [])
    /\ (forall h,
          dto.Metric_Gauge metric = None -> dto.Metric_Counter metric = None ->
          dto.Metric_Untyped metric = None -> dto.Metric_Histogram metric = Some h ->
          prompb.Samples ts = [] /\ prompb.Histograms ts = [convertHistogram h])
    /\ (is_Some (dto.Metric_Gauge metric) \/ is_Some (dto.Metric_Counter metric)
        \/ is_Some (dto.Metric_Untyped metric) ->
        prompb.Histograms ts = [] /\ length (prompb.Samples ts) = 1%nat).
Proof.
  intros Hi. exists (getTimeseries_body family metric).
  split; [by apply getTimeseries_lookup|].
  split; [|split].
  - destruct (probe_cases metric) as [[sm Hp]|[[h Hp]|Hp]].
    + right. by destruct (body_scalar family metric sm Hp) as (_ & _ & ?).
    + left. by destruct (body_histogram family metric h Hp) as (? & _ & _).
    + left. by destruct (body_empty family metric Hp) as (? & _ & _).
  - intros h Hg Hc Hu Hh.
    assert (probe metric = (None, Some h)) as Hp
      by (unfold probe; by rewrite Hg, Hc, Hu, Hh).
    by destruct (body_histogram family metric h Hp) as (? & _ & ?).
  - intros Hscalar.
    assert (exists sm, probe metric = (Some sm, None)) as [sm Hp].
    { unfold probe.
      destruct (dto.Metric_Gauge metric); [eauto|].
      destruct (dto.Metric_Counter metric); [eauto|].
      destruct (dto.Metric_Untyped metric); [eauto|].
      destruct Hscalar as [[? ?]|[[? ?]|[? ?]]]; discriminate. }
    destruct (body_scalar family metric sm Hp) as (_ & _ & Hh).
    destruct (body_scalar_sample family metric sm Hp) as (v & _ & Hs).
    by rewrite Hh, Hs.
Qed.

Lemma getTimeseries_samples_xor_histograms_witness :
  exists ts,
    getTimeseries Scenario.histogram_family !! 0%nat = Some ts
    /\ prompb.Samples ts = []
    /\ length (prompb.Histograms ts) = 1%nat.
Proof.
  destruct (getTimeseries_samples_xor_histograms
              Scenario.histogram_family 0 Scenario.histogram_metric eq_refl)
    as (ts & Hts & _ & Hh & _).
  destruct (Hh Scenario.histogram eq_refl eq_refl eq_refl eq_refl) as [Hs Hhs].
  exists ts. split; [exact Hts|]. split; [exact Hs|]. rewrite Hhs. reflexivity.
Defined.

(** ** [WriteMetrics] *)

Section write_metrics.

Context `{ext : Externals}.

Lemma collect_snoc (metricFamilies : list dto.MetricFamily) (f : dto.MetricFamily) :
  fst (collect (metricFamilies ++ [f])) = fst (collect metricFamilies) ++ getTimeseries f
  /\ length (snd (collect (metricFamilies ++ [f])))
     = S (length (snd (collect metricFamilies))).
Proof.
  unfold collect. rewrite foldl_snoc.
  destruct (foldl _ _ metricFamilies) as [ts metadata]. simpl.
  split; [done|]. rewrite length_app. simpl. lia.
Qed.

(** The series of the request are those of the families, in gather order. *)
Lemma collect_series (metricFamilies : list dto.MetricFamily) :
  fst (collect metricFamilies) = concat (map getTimeseries metricFamilies).
Proof.
  induction metricFamilies as [|f fs IH] using rev_ind; [done|].
  destruct (collect_snoc fs f) as [-> _].
  by rewrite IH, map_app, concat_app; simpl; rewrite app_nil_r.
Qed.

(** One metadata record per family. *)
Lemma collect_metadata_length (metricFamilies : list dto.MetricFamily) :
  length (snd (collect metricFamilies)) = length metricFamilies.
Proof.
  induction metricFamilies as [|f fs IH] using rev_ind; [done|].
  destruct (collect_snoc fs f) as [_ ->]. rewrite length_app, IH. simpl. lia.
Qed.

Lemma collect_series_length (metricFamilies : list dto.MetricFamily) :
  length (fst (collect metricFamilies)) = instances metricFamilies.
Proof.
  rewrite collect_series. unfold instances.
  induction metricFamilies as [|f fs IH]; [done|].
  simpl. by rewrite length_app, getTimeseries_length, IH.
Qed.

(** A run without error returns the number of series of the request,
    one per gathered instance. *)
Lemma WriteMetrics_success
    (w : writerImpl) (ctx : option context_Context) (tr : list Event) (n : Z) :
  WriteMetrics w ctx = (tr, (n, None)) ->
  n = Z.of_nat (instances (gathered w))
  /\ n = Z.of_nat (length (concat (map getTimeseries (gathered w))))
  /\ (forall f wr, In (EvMarshal f wr) tr ->
        n = Z.of_nat (length (prompb.Timeseries wr))).
Proof.
  intros H. unfold gathered.
  write_metrics_cases H fams ts Hfams Hts.
  - (* no family gathered *)
    destruct fams as [|f fs]; [|simpl in *; lia].
    repeat split; try done.
    intros f wr Hin. event_cases Hin.
  - (* an answer in 2xx *)
    assert (ts = fst (collect fams)) as -> by (by rewrite Hts).
    repeat split.
    + by rewrite collect_series_length.
    + by rewrite collect_series.
    + intros f wr Hin. event_cases Hin.
Qed.

(** C1: when [WriteMetrics] returns no error, the count it returns is the
    number of metric instances of the gathered families, which is the
    number of series put in the request: every family gives one series
    per instance, and a family without instances gives none. *)
Theorem WriteMetrics_count_is_instances
    (w : writerImpl) (ctx : option context_Context) (tr : list Event) (n : Z) :
  WriteMetrics w ctx = (tr, (n, None)) ->
  n = Z.of_nat (instances (gathered w))
  /\ n = Z.of_nat (length (concat (map getTimeseries (gathered w))))
  /\ (forall f wr, In (EvMarshal f wr) tr ->
        n = Z.of_nat (length (prompb.Timeseries wr)))
  /\ (forall family,
        length (getTimeseries family) = length (dto.MetricFamily_GetMetric family))
  /\ (forall family,
        dto.MetricFamily_GetMetric family = [] -> getTimeseries family = []).
Proof.
  intros H. destruct (WriteMetrics_success w ctx tr n H) as (Hn & Hseries & Hreq).
  repeat (split; [assumption|]). split.
  - apply getTimeseries_length.
  - intros family Hm. apply length_zero_iff_nil. by rewrite getTimeseries_length, Hm.
Qed.

Lemma WriteMetrics_early_failures
    (w : writerImpl) (ctx : option context_Context)
    (tr : list Event) (n : Z) (err : option error) :
  WriteMetrics w ctx = (tr, (n, err)) ->
  (forall e, err = Some e -> n = 0)
  /\ (n <> 0 -> err = None)
  /\ (ctx = None -> n = 0 /\ err = Some ErrNilContext)
  /\ (is_Some ctx -> gatherers w = [] -> n = 0 /\ err = Some ErrNoGatherersDefined)
  /\ (forall e, is_Some ctx -> gatherers w <> [] ->
        Gatherers_Gather (gatherers w) = Err e -> n = 0 /\ err = Some e).
Proof.
  intros H.
  write_metrics_cases H fams ts Hfams Hts.
  all: repeat split; try done; try (by intros ? [= <-]); try (by intros [? [=]]).
  all: try (intros _ Hg; rewrite Hg in *; by simpl in * ).
  all: try (intros; simplify_eq; done).
  all: try (intros; destruct (gatherers w); simpl in *; done || lia).
Qed.

Lemma WriteMetrics_late_failures
    (w : writerImpl) (ctx : option context_Context)
    (tr : list Event) (n : Z) (err : option error) :
  WriteMetrics w ctx = (tr, (n, err)) ->
  (forall f wr e, In (EvMarshal f wr) tr ->
     Format_Marshal f wr = Err e -> n = 0 /\ err = Some e)
  /\ (forall c data e, In (EvCompress c data) tr ->
        Compress c data = Err e -> n = 0 /\ err = Some e)
  /\ (forall c method url body e, ctx = Some c -> In (EvNewRequest method url body) tr ->
        http_NewRequestWithContext c method url body = Err e -> n = 0 /\ err = Some e)
  /\ (forall req e, In (EvDo req (Err e)) tr -> n = 0 /\ err = Some e)
  /\ (forall req resp, In (EvDo req (Ok resp)) tr ->
        http.StatusCode resp < 200 \/ 299 < http.StatusCode resp ->
        n = 0 /\ err = Some (rejected resp)).
Proof.
  intros H.
  write_metrics_cases H fams ts Hfams Hts.
  all: repeat split; intros;
    match goal with Hin : In _ _ |- _ => event_cases Hin end; simplify_eq.
  all: try congruence.
  all: exfalso; lia.
Qed.

(** C2: whenever [WriteMetrics] returns an error the count is 0.  The
    return sites that give an error are listed: a nil context, no
    gatherer, a failed gather, a failed serialization, a failed
    compression, a request that could not be built, a failed transport
    call and an answer outside 2xx; each returns 0 with its error. *)
Theorem WriteMetrics_error_count_zero
    (w : writerImpl) (ctx : option context_Context)
    (tr : list Event) (n : Z) (err : option error) :
  WriteMetrics w ctx = (tr, (n, err)) ->
  (forall e, err = Some e -> n = 0)
  /\ (n <> 0 -> err = None)
  /\ (ctx = None -> n = 0 /\ err = Some ErrNilContext)
  /\ (is_Some ctx -> gatherers w = [] -> n = 0 /\ err = Some ErrNoGatherersDefined)
  /\ (forall e, is_Some ctx -> gatherers w <> [] ->
        Gatherers_Gather (gatherers w) = Err e -> n = 0 /\ err = Some e)
  /\ (forall f wr e, In (EvMarshal f wr) tr ->
        Format_Marshal f wr = Err e -> n = 0 /\ err = Some e)
  /\ (forall c data e, In (EvCompress c data) tr ->
        Compress c data = Err e -> n = 0 /\ err = Some e)
  /\ (forall c method url body e, ctx = Some c -> In (EvNewRequest method url body) tr ->
        http_NewRequestWithContext c method url body = Err e -> n = 0 /\ err = Some e)
  /\ (forall req e, In (EvDo req (Err e)) tr -> n = 0 /\ err = Some e)
  /\ (forall req resp, In (EvDo req (Ok resp)) tr ->
        http.StatusCode resp < 200 \/ 299 < http.StatusCode resp ->
        n = 0 /\ err = Some (rejected resp)).
Proof.
  intros H.
  destruct (WriteMetrics_early_failures w ctx tr n err H) as (H1 & H2 & H3 & H4 & H5).
  destruct (WriteMetrics_late_failures w ctx tr n err H) as (H6 & H7 & H8 & H9 & H10).
  repeat (split; [assumption|]). assumption.
Qed.

(** C5: with a context and at least one gatherer, a gather that succeeds
    with no family makes [WriteMetrics] return (0, nil); the gather is the
    only call made: nothing is serialized, compressed or sent. *)
Theorem WriteMetrics_empty_gather (w : writerImpl) (c : context_Context) :
  gatherers w <> [] ->
  Gatherers_Gather (gatherers w) = Ok [] ->
  WriteMetrics w (Some c) = ([EvGather (gatherers w)], (0, None)).
Proof.
  intros Hg Hfams. unfold WriteMetrics. rewrite Hfams.
  by destruct (gatherers w).
Qed.

(** C6: once the transport has answered, a status code below 200 or above
    299 makes [WriteMetrics] return 0 and an error whose message ends
    with the status text of the answer; a status code from 200 to 299
    gives no error. *)
Theorem WriteMetrics_status_check
    (w : writerImpl) (ctx : option context_Context)
    (tr : list Event) (n : Z) (err : option error)
    (req : http.Request context_Context) (resp : http.Response) :
  WriteMetrics w ctx = (tr, (n, err)) ->
  In (EvDo req (Ok resp)) tr ->
  (http.StatusCode resp < 200 \/ 299 < http.StatusCode resp ->
     n = 0
     /\ err = Some ("expected 2xx HTTP code, but got " +:+ http.Status resp))
  /\ (200 <= http.StatusCode resp <= 299 ->
        err = None /\ n = Z.of_nat (instances (gathered w))).
Proof.
  intros H Hin. split.
  - intros Hcode.
    destruct (WriteMetrics_late_failures w ctx tr n err H) as (_ & _ & _ & _ & Hrej).
    exact (Hrej req resp Hin Hcode).
  - intros Hcode.
    assert (err = None) as ->.
    { write_metrics_cases H fams ts Hfams Hts; event_cases Hin; lia. }
    split; [done|].
    by destruct (WriteMetrics_success w ctx tr n H) as [? _].
Qed.

End write_metrics.

Lemma WriteMetrics_count_is_instances_witness :
  WriteMetrics Scenario.w_ok (Some tt) = (fst (WriteMetrics Scenario.w_ok (Some tt)), (3, None))
  /\ 3 = Z.of_nat (instances (gathered Scenario.w_ok)).
Proof.
  split; [vm_compute; reflexivity|].
  refine (proj1 (WriteMetrics_count_is_instances Scenario.w_ok (Some tt)
                   (fst (WriteMetrics Scenario.w_ok (Some tt))) 3 _)).
  vm_compute; reflexivity.
Defined.

Lemma WriteMetrics_error_count_zero_witness :
  snd (snd (WriteMetrics Scenario.w_500 (Some tt)))
  = Some "expected 2xx HTTP code, but got 500 Internal Server Error"
  /\ fst (snd (WriteMetrics Scenario.w_500 (Some tt))) = 0.
Proof.
  split; [vm_compute; reflexivity|].
  refine (proj1 (WriteMetrics_error_count_zero Scenario.w_500 (Some tt)
                   (fst (WriteMetrics Scenario.w_500 (Some tt)))
                   (fst (snd (WriteMetrics Scenario.w_500 (Some tt))))
                   (snd (snd (WriteMetrics Scenario.w_500 (Some tt)))) _)
            "expected 2xx HTTP code, but got 500 Internal Server Error" _).
  - destruct (WriteMetrics Scenario.w_500 (Some tt)) as [tr [n err]]. reflexivity.
  - vm_compute; reflexivity.
Defined.

Lemma WriteMetrics_empty_gather_witness :
  WriteMetrics Scenario.w_empty (Some tt) = ([EvGather (gatherers Scenario.w_empty)], (0, None)).
Proof.
  apply (WriteMetrics_empty_gather Scenario.w_empty tt).
  - discriminate.
  - reflexivity.
Defined.

Lemma WriteMetrics_status_check_witness :
  exists tr,
    WriteMetrics Scenario.w_500 (Some tt)
    = (tr, (0, Some "expected 2xx HTTP code, but got 500 Internal Server Error")).
Proof.
  destruct (WriteMetrics Scenario.w_500 (Some tt)) as [tr [n err]] eqn:E.
  exists tr.
  assert (exists req, In (EvDo req (Ok (http.mkResponse "500 Internal Server Error" 500))) tr)
    as [req Hin].
  { vm_compute in E. injection E as <- _ _. eexists. do 4 right. left. reflexivity. }
  destruct (WriteMetrics_status_check Scenario.w_500 (Some tt) tr n err req _ E Hin)
    as [Hrej _].
  destruct Hrej as [-> ->]; [right; reflexivity|reflexivity].
Defined.

(** ** Compression *)

(** Writing into a [bytes.Buffer] never fails. *)
Lemma write_all_Buffer (chunks : list bytes) :
  forall b : bytes_Buffer,
    write_all b chunks = (mkBuffer (Buffer_Bytes b ++ concat chunks), None).
Proof.
  induction chunks as [|c cs IH]; intros [b]; simpl.
  - by rewrite app_nil_r.
  - rewrite IH. simpl. by rewrite <- app_assoc.
Qed.

Section compression.

Context `{ext : Externals}.

(** What [gzip.Writer.Write] leaves in a fresh buffer: the header and the
    blocks the compressor flushed. *)
Lemma gzip_Write_Buffer (data : bytes) :
  gzip_Write (gzip_NewWriter (mkBuffer [])) data
  = (mkGzipWriter
       (mkBuffer (gzip_header ++ concat (snd (flate_Write flate_NewWriter data))))
       true false None
       (Z.of_nat (length data) mod 2 ^ 32)
       (crc32_Update 0 data)
       (fst (flate_Write flate_NewWriter data)),
     (Z.of_nat (length data), None)).
Proof.
  unfold gzip_Write, gzip_NewWriter. simpl.
  destruct (flate_Write flate_NewWriter data) as [c' chunks]. simpl.
  by rewrite write_all_Buffer.
Qed.

(** C8: [Compress] with the None variant returns its input, and neither
    the None nor the Snappy variant returns an error. *)
Theorem Compress_None_Snappy (data : bytes) :
  Compress Compression_None data = Ok data
  /\ Compress Snappy data = Ok (snappy_Encode data)
  /\ (forall e, Compress Compression_None data <> Err e)
  /\ (forall e, Compress Snappy data <> Err e).
Proof. by repeat split. Qed.

(** C10: [Compress] with the Gzip variant never returns an error: the
    write into the in-memory buffer reports none, so the error branch is
    not taken; hence each of None, Snappy and Gzip gives a payload. *)
Theorem Compress_Gzip_succeeds (data : bytes) :
  snd (snd (gzip_Write (gzip_NewWriter (mkBuffer [])) data)) = None
  /\ (exists out, Compress Gzip data = Ok out)
  /\ (forall e, Compress Gzip data <> Err e)
  /\ Forall (fun c => exists out, Compress c data = Ok out)
       [Compression_None; Snappy; Gzip].
Proof.
  assert (exists out, Compress Gzip data = Ok out) as [out Hout].
  { unfold Compress. simpl. rewrite gzip_Write_Buffer.
    destruct (gzip_Close _) as [w' e']. eauto. }
  split; [by rewrite gzip_Write_Buffer|].
  split; [eauto|].
  split; [intros e; by rewrite Hout|].
  repeat constructor; eauto.
Qed.

End compression.

(** ** Timestamps *)

Lemma wrap64_small (z : Z) : in_int64 z -> wrap64 z = z.
Proof. unfold in_int64, wrap64. intros Hz. rewrite Z.mod_small; lia. Qed.

Lemma wrap64_decomp (z : Z) : exists k, wrap64 z = z + k * 2 ^ 64.
Proof.
  exists (- ((z + 2 ^ 63) / 2 ^ 64)). unfold wrap64.
  rewrite Z.mod_eq by lia. ring.
Qed.

Lemma wrap64_shift (z k : Z) : wrap64 (z + k * 2 ^ 64) = wrap64 z.
Proof.
  unfold wrap64.
  replace (z + k * 2 ^ 64 + 2 ^ 63) with (z + 2 ^ 63 + k * 2 ^ 64) by ring.
  by rewrite Z_mod_plus_full.
Qed.

(** [UnixMilli] of a normalised time whose seconds are known up to a
    multiple of 2^64. *)
Lemma UnixMilli_normalised (s s' r k : Z) :
  s' = s + k * 2 ^ 64 ->
  0 <= r ->
  time.UnixMilli (time.mkTime s' r) = wrap64 ((s * 1000000000 + r) / 1000000).
Proof.
  intros -> Hr. unfold time.UnixMilli. simpl.
  destruct (wrap64_decomp ((s + k * 2 ^ 64) * 1000)) as [k2 ->].
  rewrite Z.quot_div_nonneg by lia.
  replace (s * 1000000000 + r) with (r + (s * 1000) * 1000000) by ring.
  rewrite Z.div_add by lia.
  replace ((s + k * 2 ^ 64) * 1000 + k2 * 2 ^ 64 + r / 1000000)
    with (r / 1000000 + s * 1000 + (k * 1000 + k2) * 2 ^ 64) by ring.
  apply wrap64_shift.
Qed.

(** [time.Unix] followed by [UnixMilli] is the floor of the nanosecond
    count divided by 10^6, in [int64] arithmetic. *)
Lemma UnixMilli_Unix (sec nsec : Z) :
  time.UnixMilli (time.Unix sec nsec)
  = wrap64 ((sec * 1000000000 + nsec) / 1000000).
Proof.
  unfold time.Unix.
  destruct ((nsec <? 0) || (1000000000 <=? nsec)) eqn:Hnorm.
  - pose proof (Z.quot_rem' nsec 1000000000) as Hqr.
    pose proof (Z.rem_bound_abs nsec 1000000000) as Hbound.
    set (n := Z.quot nsec 1000000000) in *.
    destruct (wrap64_decomp (sec + n)) as [k Hk]. rewrite Hk.
    destruct (nsec - n * 1000000000 <? 0) eqn:Hneg.
    + destruct (wrap64_decomp (sec + n + k * 2 ^ 64 - 1)) as [k2 ->].
      rewrite (UnixMilli_normalised (sec + n - 1) _ _ (k + k2)) by (ring || lia).
      f_equal. f_equal. ring.
    + rewrite (UnixMilli_normalised (sec + n) _ _ k) by (ring || lia).
      f_equal. f_equal. ring.
  - rewrite (UnixMilli_normalised sec sec nsec 0) by (ring || lia). done.
Qed.

Lemma convertExemplar_nil : convertExemplar None = prompb.mkExemplar [] 0%float 0.
Proof. reflexivity. Qed.

(** C9: the converted exemplar has the labels and the value of the source
    and, as timestamp, the source time in milliseconds with the part below
    one millisecond dropped: the largest whole millisecond not after the
    source time, not the nearest one (when that number fits an int64). *)
Theorem convertExemplar_truncates (e : dto.Exemplar) (t : timestamppb.Timestamp) :
  dto.Exemplar_Timestamp e = Some t ->
  in_int64 ((timestamppb.Seconds t * 1000000000 + timestamppb.Nanos t) / 1000000) ->
  prompb.Exemplar_Labels (convertExemplar (Some e)) = convertLabels (dto.Exemplar_Label e)
  /\ prompb.Exemplar_Value (convertExemplar (Some e))
     = default 0%float (dto.Exemplar_Value e)
  /\ prompb.Exemplar_Timestamp (convertExemplar (Some e))
     = (timestamppb.Seconds t * 1000000000 + timestamppb.Nanos t) / 1000000
  /\ prompb.Exemplar_Timestamp (convertExemplar (Some e)) * 1000000
     <= timestamppb.Seconds t * 1000000000 + timestamppb.Nanos t
     < (prompb.Exemplar_Timestamp (convertExemplar (Some e)) + 1) * 1000000
  /\ (0 <= timestamppb.Nanos t < 1000000000 ->
      prompb.Exemplar_Timestamp (convertExemplar (Some e))
      = timestamppb.Seconds t * 1000 + timestamppb.Nanos t / 1000000).
Proof.
  intros Ht Hfit.
  assert (prompb.Exemplar_Timestamp (convertExemplar (Some e))
          = (timestamppb.Seconds t * 1000000000 + timestamppb.Nanos t) / 1000000) as Hms.
  { unfold convertExemplar, AsTime. simpl. rewrite Ht. simpl.
    rewrite UnixMilli_Unix. by apply wrap64_small. }
  split; [done|]. split; [done|]. split; [exact Hms|]. split.
  - rewrite Hms.
    pose proof (Z.div_mod (timestamppb.Seconds t * 1000000000 + timestamppb.Nanos t)
                  1000000 ltac:(lia)).
    pose proof (Z.mod_pos_bound
                  (timestamppb.Seconds t * 1000000000 + timestamppb.Nanos t)
                  1000000 ltac:(lia)).
    lia.
  - intros _. rewrite Hms.
    replace (timestamppb.Seconds t * 1000000000 + timestamppb.Nanos t)
      with (timestamppb.Nanos t + (timestamppb.Seconds t * 1000) * 1000000) by ring.
    rewrite Z.div_add by lia. ring.
Qed.

(** 1.2345 s becomes 1234 ms. *)
Lemma convertExemplar_truncates_witness :
  prompb.Exemplar_Timestamp
    (convertExemplar
       (Some (dto.mkExemplar [] (Some 1%float)
                (Some (timestamppb.mkTimestamp 1 234500000)))))
  = 1234.
Proof.
  refine (proj1 (proj2 (proj2
    (convertExemplar_truncates
       (dto.mkExemplar [] (Some 1%float) (Some (timestamppb.mkTimestamp 1 234500000)))
       (timestamppb.mkTimestamp 1 234500000) eq_refl _)))).
  unfold in_int64. vm_compute. split; [discriminate | reflexivity].
Defined.

(** ** Exemplars of scalar instances *)

(** C3, at the counter of the test scenario: the counter has no exemplar,
    and its series has the one sample (its value, the timestamp of the
    instance) together with one exemplar, the conversion of the nil
    pointer: no labels, value 0, timestamp 0. *)
Theorem counter_without_exemplar_yields_exemplar :
  dto.Metric_Counter Scenario.counter_metric
  = Some (dto.mkCounter (Some 0.5%float) None None)
  /\ getTimeseries Scenario.counter_family
     = [prompb.mkTimeSeries
          [prompb.mkLabel "__name__" "foo_bar_baz"]
          [prompb.mkSample 0.5%float 0]
          [prompb.mkExemplar [] 0%float 0]
          []].
Proof. split; reflexivity. Qed.

(** * Further properties of the adapter *)

(** An instance with none of the four payloads (a summary, for one) is
    kept: its series is at the index of the instance, with the labels and
    with no sample, no exemplar and no histogram entry. *)
Theorem getTimeseries_unrecognised_payload
    (family : dto.MetricFamily) (i : nat) (metric : dto.Metric) :
  dto.MetricFamily_GetMetric family !! i = Some metric ->
  dto.Metric_Gauge metric = None ->
  dto.Metric_Counter metric = None ->
  dto.Metric_Untyped metric = None ->
  dto.Metric_Histogram metric = None ->
  getTimeseries family !! i
  = Some (prompb.mkTimeSeries
            (convertLabels (dto.Metric_Label metric)
             ++ [prompb.mkLabel "__name__" (dto.MetricFamily_GetName family)])
            [] [] []).
Proof.
  intros Hi Hg Hc Hu Hh. rewrite (getTimeseries_lookup family i metric Hi).
  unfold getTimeseries_body, probe. by rewrite Hg, Hc, Hu, Hh.
Qed.

Lemma getTimeseries_unrecognised_payload_witness :
  getTimeseries Cases.family !! 0%nat
  = Some (prompb.mkTimeSeries
            [prompb.mkLabel "job" "api"; prompb.mkLabel "__name__" "requests"]
            [] [] []).
Proof.
  exact (getTimeseries_unrecognised_payload Cases.family 0 Cases.summary_metric
           eq_refl eq_refl eq_refl eq_refl eq_refl).
Defined.

(** The payload is the first one present among gauge, counter and
    untyped, whatever the later fields hold.  Its value and the timestamp
    of the instance (0 when absent) make the one sample.  A gauge or an
    untyped value gives no exemplar; a counter gives exactly one, the
    conversion of its exemplar pointer, nil included. *)
Theorem getTimeseries_scalar_by_probe_order
    (family : dto.MetricFamily) (i : nat) (metric : dto.Metric) :
  dto.MetricFamily_GetMetric family !! i = Some metric ->
  exists ts,
    getTimeseries family !! i = Some ts
    /\ (forall g, dto.Metric_Gauge metric = Some g ->
          prompb.Samples ts
          = [prompb.mkSample (default 0%float (dto.Gauge_Value g))
               (default 0 (dto.Metric_TimestampMs metric))]
          /\ prompb.Exemplars ts = [])
    /\ (forall c, dto.Metric_Gauge metric = None ->
          dto.Metric_Counter metric = Some c ->
          prompb.Samples ts
          = [prompb.mkSample (default 0%float (dto.Counter_Value c))
               (default 0 (dto.Metric_TimestampMs metric))]
          /\ prompb.Exemplars ts = [convertExemplar (dto.Counter_Exemplar c)])
    /\ (forall u, dto.Metric_Gauge metric = None ->
          dto.Metric_Counter metric = None ->
          dto.Metric_Untyped metric = Some u ->
          prompb.Samples ts
          = [prompb.mkSample (default 0%float (dto.Untyped_Value u))
               (default 0 (dto.Metric_TimestampMs metric))]
          /\ prompb.Exemplars ts = []).
Proof.
  intros Hi. exists (getTimeseries_body family metric).
  split; [by apply getTimeseries_lookup|].
  split; [|split].
  - intros g Hg.
    assert (probe metric = (Some (AnyGauge g), None)) as Hp
      by (unfold probe; by rewrite Hg).
    by destruct (body_scalar family metric _ Hp) as (-> & -> & _).
  - intros c Hg Hc.
    assert (probe metric = (Some (AnyCounter c), None)) as Hp
      by (unfold probe; by rewrite Hg, Hc).
    by destruct (body_scalar family metric _ Hp) as (-> & -> & _).
  - intros u Hg Hc Hu.
    assert (probe metric = (Some (AnyUntyped u), None)) as Hp
      by (unfold probe; by rewrite Hg, Hc, Hu).
    by destruct (body_scalar family metric _ Hp) as (-> & -> & _).
Qed.

(** The instance with gauge 2, a counter and a histogram: the gauge wins. *)
Lemma getTimeseries_scalar_by_probe_order_witness :
  exists ts,
    getTimeseries Cases.family !! 4%nat = Some ts
    /\ prompb.Samples ts = [prompb.mkSample 2%float 0]
    /\ prompb.Exemplars ts = [].
Proof.
  destruct (getTimeseries_scalar_by_probe_order Cases.family 4 Cases.mixed_metric eq_refl)
    as (ts & Hts & Hg & _).
  exists ts. split; [exact Hts|]. exact (Hg _ eq_refl).
Defined.

(** A histogram instance gives one exemplar per exemplar of the histogram,
    in order (a nil entry of the list becomes the zero exemplar), and one
    histogram entry: sum, schema and zero threshold (0 when absent), the
    delta and count lists as they are, each span as (offset, length) in
    order, and the creation time in milliseconds as timestamp. *)
Theorem getTimeseries_histogram_series
    (family : dto.MetricFamily) (i : nat) (metric : dto.Metric) (h : dto.Histogram) :
  dto.MetricFamily_GetMetric family !! i = Some metric ->
  dto.Metric_Gauge metric = None ->
  dto.Metric_Counter metric = None ->
  dto.Metric_Untyped metric = None ->
  dto.Metric_Histogram metric = Some h ->
  exists ts entry,
    getTimeseries family !! i = Some ts
    /\ prompb.Histograms ts = [entry]
    /\ length (prompb.Exemplars ts) = length (dto.Histogram_Exemplars h)
    /\ (forall j e, dto.Histogram_Exemplars h !! j = Some e ->
          prompb.Exemplars ts !! j = Some (convertExemplar e))
    /\ prompb.Histogram_Sum entry = default 0%float (dto.Histogram_SampleSum h)
    /\ prompb.Histogram_Schema entry = default 0 (dto.Histogram_Schema h)
    /\ prompb.Histogram_ZeroThreshold entry
       = default 0%float (dto.Histogram_ZeroThreshold h)
    /\ prompb.Histogram_NegativeDeltas entry = dto.Histogram_NegativeDelta h
    /\ prompb.Histogram_NegativeCounts entry = dto.Histogram_NegativeCount h
    /\ prompb.Histogram_PositiveDeltas entry = dto.Histogram_PositiveDelta h
    /\ prompb.Histogram_PositiveCounts entry = dto.Histogram_PositiveCount h
    /\ prompb.Histogram_NegativeSpans entry
       = map (fun s => prompb.mkBucketSpan (default 0 (dto.BucketSpan_Offset s))
                         (default 0 (dto.BucketSpan_Length s)))
           (dto.Histogram_NegativeSpan h)
    /\ prompb.Histogram_PositiveSpans entry
       = map (fun s => prompb.mkBucketSpan (default 0 (dto.BucketSpan_Offset s))
                         (default 0 (dto.BucketSpan_Length s)))
           (dto.Histogram_PositiveSpan h)
    /\ prompb.Histogram_Timestamp entry
       = wrap64 ((timestamppb.GetSeconds (dto.Histogram_CreatedTimestamp h) * 1000000000
                  + timestamppb.GetNanos (dto.Histogram_CreatedTimestamp h)) / 1000000).
Proof.
  intros Hi Hg Hc Hu Hh.
  assert (probe metric = (None, Some h)) as Hp
    by (unfold probe; by rewrite Hg, Hc, Hu, Hh).
  destruct (body_histogram family metric h Hp) as (_ & Hex & Hhs).
  exists (getTimeseries_body family metric), (convertHistogram h).
  split; [by apply getTimeseries_lookup|]. split; [exact Hhs|].
  rewrite Hex. split; [by rewrite length_map|]. split.
  { intros j e Hj. change (map ?f ?l) with (f <$> l).
    by rewrite list_lookup_fmap, Hj. }
  repeat (split; [reflexivity|]).
  unfold convertHistogram, AsTime. simpl. apply UnixMilli_Unix.
Qed.

Lemma getTimeseries_histogram_series_witness :
  exists ts,
    getTimeseries Cases.family !! 3%nat = Some ts
    /\ length (prompb.Exemplars ts) = 3%nat
    /\ prompb.Exemplars ts !! 1%nat = Some (prompb.mkExemplar [] 0%float 0)
    /\ exists entry, prompb.Histograms ts = [entry]
         /\ prompb.Histogram_PositiveSpans entry
            = [prompb.mkBucketSpan 0 2; prompb.mkBucketSpan 0 1]
         /\ prompb.Histogram_Timestamp entry = 1700000000001.
Proof.
  destruct (getTimeseries_histogram_series Cases.family 3 Cases.histogram_metric
              Cases.native_histogram eq_refl eq_refl eq_refl eq_refl eq_refl)
    as (ts & entry & Hts & Hhs & Hlen & Hex & _ & _ & _ & _ & _ & _ & _ & _ & Hpos & Htime).
  exists ts. split; [exact Hts|]. split; [exact Hlen|].
  split; [exact (Hex 1%nat None eq_refl)|].
  exists entry. split; [exact Hhs|]. split; [exact Hpos|].
  rewrite Htime. vm_compute. reflexivity.
Defined.

(** The timestamp of a converted exemplar, for every source: the floor of
    the nanosecond count over 10^6, reduced to an int64; a [Nanos] outside
    [0, 10^9) is carried into the seconds; a nil exemplar or an absent
    timestamp gives 0. *)
Theorem convertExemplar_timestamp_total (e : option dto.Exemplar) :
  prompb.Exemplar_Timestamp (convertExemplar e)
  = wrap64 ((timestamppb.GetSeconds (dto.Exemplar_GetTimestamp e) * 1000000000
             + timestamppb.GetNanos (dto.Exemplar_GetTimestamp e)) / 1000000)
  /\ in_int64 (prompb.Exemplar_Timestamp (convertExemplar e))
  /\ (dto.Exemplar_GetTimestamp e = None ->
      prompb.Exemplar_Timestamp (convertExemplar e) = 0).
Proof.
  assert (prompb.Exemplar_Timestamp (convertExemplar e)
          = wrap64 ((timestamppb.GetSeconds (dto.Exemplar_GetTimestamp e) * 1000000000
                     + timestamppb.GetNanos (dto.Exemplar_GetTimestamp e)) / 1000000))
    as Hms by (unfold convertExemplar, AsTime; simpl; apply UnixMilli_Unix).
  split; [exact Hms|]. split.
  - rewrite Hms. unfold in_int64, wrap64.
    pose proof (Z.mod_pos_bound
      ((timestamppb.GetSeconds (dto.Exemplar_GetTimestamp e) * 1000000000
        + timestamppb.GetNanos (dto.Exemplar_GetTimestamp e)) / 1000000 + 2 ^ 63)
      (2 ^ 64) ltac:(lia)).
    lia.
  - intros Hnone. rewrite Hms, Hnone. reflexivity.
Qed.

(** One second and -1 ns (Seconds 1, Nanos -1) is 999 ms; half a
    millisecond before the epoch is -1 ms. *)
Lemma convertExemplar_timestamp_total_witness :
  prompb.Exemplar_Timestamp
    (convertExemplar (Some (dto.mkExemplar [] None
                              (Some (timestamppb.mkTimestamp 1 (-1))))))
  = 999
  /\ prompb.Exemplar_Timestamp (convertExemplar (Some Cases.early_exemplar)) = -1.
Proof.
  split.
  - rewrite (proj1 (convertExemplar_timestamp_total _)). vm_compute. reflexivity.
  - rewrite (proj1 (convertExemplar_timestamp_total _)). vm_compute. reflexivity.
Defined.

(** The series of a family are made instance by instance: those of a
    family whose instances are [l1 ++ l2] are the series of [l1] followed
    by the series of [l2]; and they depend on the family through its name
    only, not through its help, type or unit. *)
Theorem getTimeseries_instancewise
    (name help help' : option string) (type type' : option dto.MetricType)
    (unit unit' : option string) (l1 l2 : list dto.Metric) :
  getTimeseries (dto.mkMetricFamily name help type (l1 ++ l2) unit)
  = getTimeseries (dto.mkMetricFamily name help' type' l1 unit')
    ++ getTimeseries (dto.mkMetricFamily name help' type' l2 unit').
Proof.
  rewrite !getTimeseries_map. simpl. by rewrite map_app.
Qed.

(** * Further properties of [WriteMetrics] *)

Section write_metrics_more.

Context `{ext : Externals}.

Lemma collect_snoc_metadata (metricFamilies : list dto.MetricFamily) (f : dto.MetricFamily) :
  snd (collect (metricFamilies ++ [f]))
  = snd (collect metricFamilies)
    ++ [prompb.mkMetricMetadata (dto.MetricFamily_GetType f) (dto.MetricFamily_GetName f)
          (dto.MetricFamily_GetHelp f) (dto.MetricFamily_GetUnit f)].
Proof.
  unfold collect. rewrite foldl_snoc.
  by destruct (foldl _ _ metricFamilies) as [ts metadata].
Qed.

Lemma collect_metadata (metricFamilies : list dto.MetricFamily) :
  snd (collect metricFamilies)
  = map (fun f => prompb.mkMetricMetadata (dto.MetricFamily_GetType f)
                    (dto.MetricFamily_GetName f) (dto.MetricFamily_GetHelp f)
                    (dto.MetricFamily_GetUnit f))
      metricFamilies.
Proof.
  induction metricFamilies as [|f fs IH] using rev_ind; [done|].
  by rewrite collect_snoc_metadata, IH, map_app.
Qed.

(** The request that is serialized holds, in gather order, the series of
    every family (instance order within a family) and one metadata record
    per family, also for a family without instances: its name, help and
    unit, empty when absent. *)
Theorem WriteMetrics_request_content
    (w : writerImpl) (ctx : option context_Context)
    (tr : list Event) (n : Z) (err : option error)
    (f : Format) (wr : prompb.WriteRequest) :
  WriteMetrics w ctx = (tr, (n, err)) ->
  In (EvMarshal f wr) tr ->
  f = format w
  /\ prompb.Timeseries wr = concat (map getTimeseries (gathered w))
  /\ length (prompb.Metadata wr) = length (gathered w)
  /\ (forall i family, gathered w !! i = Some family ->
        exists md, prompb.Metadata wr !! i = Some md
          /\ prompb.MetricFamilyName md = default "" (dto.MetricFamily_Name family)
          /\ prompb.Help md = default "" (dto.MetricFamily_Help family)
          /\ prompb.Unit md = default "" (dto.MetricFamily_Unit family)).
Proof.
  intros H Hin. unfold gathered.
  assert (forall fams ts md, collect fams = (ts, md) ->
            ts = concat (map getTimeseries fams)
            /\ md = map (fun f => prompb.mkMetricMetadata (dto.MetricFamily_GetType f)
                           (dto.MetricFamily_GetName f) (dto.MetricFamily_GetHelp f)
                           (dto.MetricFamily_GetUnit f)) fams) as Hcollect.
  { intros fams ts md Hc.
    split; [rewrite <- collect_series|rewrite <- collect_metadata]; by rewrite Hc. }
  write_metrics_cases H fams ts Hfams Hts; event_cases Hin;
    destruct (Hcollect _ _ _ Hts) as [-> ->]; simpl;
    (split; [done|]); (split; [done|]); (split; [by rewrite length_map|]);
    intros i family Hi; eexists;
    (split; [by (change (map ?g ?l) with (g <$> l); rewrite list_lookup_fmap, Hi)|]);
    done.
Qed.

Lemma dto_MetricType_name_Some (t : Z) (name : string) :
  dto_MetricType_name t = Some name -> 0 <= t <= 5.
Proof.
  destruct t as [|p|p]; simpl; [lia| |done].
  destruct p as [[p|p|]|[p|p|]|]; try destruct p; simpl; try done; lia.
Qed.

(** The metadata type is the number of the family's [dto.MetricType],
    unchanged.  The two enumerations number their values differently, so
    for each of the six family types the wire type so obtained has
    another name: a counter family is sent as UNKNOWN, a gauge family as
    COUNTER, a histogram family as GAUGEHISTOGRAM. *)
Theorem WriteMetrics_metadata_type
    (w : writerImpl) (ctx : option context_Context)
    (tr : list Event) (n : Z) (err : option error)
    (f : Format) (wr : prompb.WriteRequest) (i : nat) (family : dto.MetricFamily) :
  WriteMetrics w ctx = (tr, (n, err)) ->
  In (EvMarshal f wr) tr ->
  gathered w !! i = Some family ->
  exists md,
    prompb.Metadata wr !! i = Some md
    /\ prompb.MetricMetadata_Type md = default 0 (dto.MetricFamily_Type family)
    /\ (forall name, dto_MetricType_name (default 0 (dto.MetricFamily_Type family)) = Some name ->
          prompb_MetricType_name (prompb.MetricMetadata_Type md) <> Some name)
    /\ (dto_MetricType_name (default 0 (dto.MetricFamily_Type family)) = Some "COUNTER" ->
          prompb_MetricType_name (prompb.MetricMetadata_Type md) = Some "UNKNOWN")
    /\ (dto_MetricType_name (default 0 (dto.MetricFamily_Type family)) = Some "GAUGE" ->
          prompb_MetricType_name (prompb.MetricMetadata_Type md) = Some "COUNTER")
    /\ (dto_MetricType_name (default 0 (dto.MetricFamily_Type family)) = Some "HISTOGRAM" ->
          prompb_MetricType_name (prompb.MetricMetadata_Type md) = Some "GAUGEHISTOGRAM").
Proof.
  intros H Hin Hi. unfold gathered in Hi.
  assert (exists fams ts md, Gatherers_Gather (gatherers w) = Ok fams
            /\ collect fams = (ts, md) /\ wr = prompb.mkWriteRequest ts md)
    as (fams & ts & md & Hfams & Hts & ->).
  { write_metrics_cases H fams ts Hfams' Hts; event_cases Hin;
      eexists _, _, _; (split; [reflexivity|]); (split; [eassumption|reflexivity]). }
  rewrite Hfams in Hi.
  assert (md = snd (collect fams)) as -> by (by rewrite Hts).
  rewrite collect_metadata. simpl.
  eexists. split.
  { change (map ?g ?l) with (g <$> l). by rewrite list_lookup_fmap, Hi. }
  simpl. unfold dto.MetricFamily_GetType.
  generalize (default 0 (dto.MetricFamily_Type family)). intros t.
  split; [done|].
  assert (0 <= t <= 5 \/ dto_MetricType_name t = None) as [Ht|Hnone]
    by (destruct (dto_MetricType_name t) eqn:E;
        [left; by eapply dto_MetricType_name_Some|by right]).
  - assert (t = 0 \/ t = 1 \/ t = 2 \/ t = 3 \/ t = 4 \/ t = 5)
      as [->|[->|[->|[->|[->| ->]]]]] by lia;
      repeat split; intros; cbn in *; congruence.
  - rewrite Hnone. repeat split; intros; congruence.
Qed.

(** What a run that reached the transport went through. *)
Lemma WriteMetrics_Do_inv
    (w : writerImpl) (ctx : option context_Context)
    (tr : list Event) (n : Z) (err : option error)
    (req : http.Request context_Context) (r : result http.Response) :
  WriteMetrics w ctx = (tr, (n, err)) ->
  In (EvDo req r) tr ->
  exists c wr uncompressed compressed req0,
    ctx = Some c
    /\ Format_Marshal (format w) wr = Ok uncompressed
    /\ Compress (encoding w) uncompressed = Ok compressed
    /\ http_NewRequestWithContext c http.MethodPost (targetURL w) compressed = Ok req0
    /\ req = Compression_UpdateRequest (encoding w)
               (Format_UpdateRequest (format w)
                  (http.with_Header
                     (http.Header_Add "X-Prometheus-Remote-Write-Version" (version w))
                     req0))
    /\ r = hc w req
    /\ tr = [EvGather (gatherers w); EvMarshal (format w) wr;
             EvCompress (encoding w) uncompressed;
             EvNewRequest http.MethodPost (targetURL w) compressed;
             EvDo req r]
            ++ match r with Ok resp => [EvBodyClose resp] | Err _ => [] end.
Proof.
  intros H Hin.
  write_metrics_cases H fams ts Hfams Hts; event_cases Hin;
    eexists _, _, _, _, _; repeat split; eauto.
Qed.

(** The transport is called at most once, with POST on the target URL,
    and only after the whole request was serialized and compressed: its
    body is built from the compressed serialization.  Nothing is called
    after it except the closing of the response body, which happens for
    every response, whatever its status. *)
Theorem WriteMetrics_transport_last
    (w : writerImpl) (ctx : option context_Context)
    (tr : list Event) (n : Z) (err : option error)
    (req : http.Request context_Context) (r : result http.Response) :
  WriteMetrics w ctx = (tr, (n, err)) ->
  In (EvDo req r) tr ->
  exists c wr uncompressed compressed req0,
    ctx = Some c
    /\ Format_Marshal (format w) wr = Ok uncompressed
    /\ Compress (encoding w) uncompressed = Ok compressed
    /\ http_NewRequestWithContext c http.MethodPost (targetURL w) compressed = Ok req0
    /\ http.Request_Body req = http.Request_Body req0
    /\ r = hc w req
    /\ tr = [EvGather (gatherers w); EvMarshal (format w) wr;
             EvCompress (encoding w) uncompressed;
             EvNewRequest "POST" (targetURL w) compressed;
             EvDo req r]
            ++ match r with Ok resp => [EvBodyClose resp] | Err _ => [] end.
Proof.
  intros H Hin.
  destruct (WriteMetrics_Do_inv w ctx tr n err req r H Hin)
    as (c & wr & u & z & req0 & Hc & Hm & Hz & Hreq & -> & Hr & Htr).
  exists c, wr, u, z, req0. repeat (split; [assumption|]).
  split; [|split; assumption].
  unfold Compression_UpdateRequest, Format_UpdateRequest.
  by destruct (encoding w =? Compression_None).
Qed.

(** The headers of the request handed to the transport: Content-Type has
    the single value of the format (application/octet-stream for an
    undefined one), the configured version is the last value of
    X-Prometheus-Remote-Write-Version, Content-Encoding has the single
    name of the compression, and is left as the request was built when
    the compression is None; no other header is touched. *)
Theorem WriteMetrics_request_headers
    (w : writerImpl) (ctx : option context_Context)
    (tr : list Event) (n : Z) (err : option error)
    (req : http.Request context_Context) (r : result http.Response) :
  WriteMetrics w ctx = (tr, (n, err)) ->
  In (EvDo req r) tr ->
  exists c compressed req0,
    http_NewRequestWithContext c "POST" (targetURL w) compressed = Ok req0
    /\ http.Request_Header req !! "Content-Type"
       = Some [if format w =? 1 then "application/x-protobuf"
               else if format w =? 2 then "application/json"
               else "application/octet-stream"]
    /\ http.Request_Header req !! "X-Prometheus-Remote-Write-Version"
       = Some (default [] (http.Request_Header req0 !! "X-Prometheus-Remote-Write-Version")
               ++ [version w])
    /\ (encoding w <> 0 ->
        http.Request_Header req !! "Content-Encoding"
        = Some [if encoding w =? 1 then "snappy"
                else if encoding w =? 2 then "gzip"
                else "%INVALID!(" +:+ pretty (encoding w) +:+ ")"])
    /\ (encoding w = 0 ->
        http.Request_Header req !! "Content-Encoding"
        = http.Request_Header req0 !! "Content-Encoding")
    /\ (forall key, key <> "Content-Type" -> key <> "Content-Encoding" ->
          key <> "X-Prometheus-Remote-Write-Version" ->
          http.Request_Header req !! key = http.Request_Header req0 !! key).
Proof.
  intros H Hin.
  destruct (WriteMetrics_Do_inv w ctx tr n err req r H Hin)
    as (c & wr & u & z & req0 & Hc & Hm & Hz & Hreq & -> & Hr & Htr).
  exists c, z, req0. split; [exact Hreq|].
  unfold Compression_UpdateRequest, Format_UpdateRequest, Compression_String,
    Compression_None, Snappy, Gzip, Protobuf, JSON,
    http.with_Header, http.Header_Set, http.Header_Add, http.Header.
  destruct (encoding w =? 0) eqn:He; simpl.
  - apply Z.eqb_eq in He.
    split; [by rewrite lookup_insert_eq|].
    split; [by rewrite lookup_insert_ne, lookup_insert_eq by done|].
    split; [done|].
    split; [intros _; by rewrite !lookup_insert_ne by done|].
    intros key H1 H2 H3. by rewrite !lookup_insert_ne by done.
  - apply Z.eqb_neq in He.
    split; [by rewrite lookup_insert_ne, lookup_insert_eq by done|].
    split; [by rewrite !lookup_insert_ne, lookup_insert_eq by done|].
    split; [intros _; by rewrite lookup_insert_eq|].
    split; [done|].
    intros key H1 H2 H3. by rewrite !lookup_insert_ne by done.
Qed.

(** [WriteMetrics] returns a nil error in two cases only: nothing was
    gathered, and then nothing but the gather was called and the count is
    0; or the transport answered with a status from 200 to 299, and the
    body of that response was closed last. *)
Theorem WriteMetrics_success_cases
    (w : writerImpl) (ctx : option context_Context) (tr : list Event) (n : Z) :
  WriteMetrics w ctx = (tr, (n, None)) ->
  (Gatherers_Gather (gatherers w) = Ok [] /\ tr = [EvGather (gatherers w)] /\ n = 0)
  \/ (exists req resp,
        In (EvDo req (Ok resp)) tr
        /\ 200 <= http.StatusCode resp <= 299
        /\ last tr = Some (EvBodyClose resp)
        /\ gathered w <> []).
Proof.
  intros H. unfold gathered.
  write_metrics_cases H fams ts Hfams Hts.
  - left. destruct fams; [done|simpl in *; lia].
  - right. eexists _, _. split; [do 4 right; left; reflexivity|].
    split; [lia|]. split; [done|]. intros ->. simpl in *. lia.
Qed.

(** A format other than Protobuf and JSON, or a compression other than
    None, Snappy and Gzip, is found out only when the value is used: the
    run fails with the error naming the number, with count 0, and the
    transport is not called. *)
Theorem WriteMetrics_undefined_variant
    (w : writerImpl) (ctx : option context_Context)
    (tr : list Event) (n : Z) (err : option error) :
  WriteMetrics w ctx = (tr, (n, err)) ->
  (forall f wr, In (EvMarshal f wr) tr -> f <> 1 -> f <> 2 ->
     n = 0
     /\ err = Some ("unrecognized format %INVALID!(" +:+ pretty f +:+ ")")
     /\ forall req r, ~ In (EvDo req r) tr)
  /\ (forall e data, In (EvCompress e data) tr -> e <> 0 -> e <> 1 -> e <> 2 ->
        n = 0
        /\ err = Some ("unsupported encoding %INVALID!(" +:+ pretty e +:+ ")")
        /\ forall req r, ~ In (EvDo req r) tr).
Proof.
  intros H. split.
  - intros f wr Hin H1 H2.
    assert (Format_Marshal f wr
            = Err ("unrecognized format %INVALID!(" +:+ pretty f +:+ ")")) as Hm.
    { unfold Format_Marshal, Format_String, Protobuf, JSON.
      by rewrite (proj2 (Z.eqb_neq _ _) H1), (proj2 (Z.eqb_neq _ _) H2). }
    write_metrics_cases H fams ts Hfams Hts; event_cases Hin;
      try (exfalso; congruence);
      rewrite Hm in *; simplify_eq;
      (split; [done|]); (split; [done|]);
      intros req r Hdo; event_cases Hdo.
  - intros e data Hin H0 H1 H2.
    assert (Compress e data
            = Err ("unsupported encoding %INVALID!(" +:+ pretty e +:+ ")")) as Hm.
    { unfold Compress, Compression_String, Compression_None, Snappy, Gzip.
      by rewrite (proj2 (Z.eqb_neq _ _) H0), (proj2 (Z.eqb_neq _ _) H1),
        (proj2 (Z.eqb_neq _ _) H2). }
    write_metrics_cases H fams ts Hfams Hts; event_cases Hin;
      try (exfalso; congruence);
      rewrite Hm in *; simplify_eq;
      (split; [done|]); (split; [done|]);
      intros req r Hdo; event_cases Hdo.
Qed.

End write_metrics_more.

(** * Further properties of [Compress] *)

Section compression_more.

Context `{ext : Externals}.

Lemma Compress_Gzip_value (data : bytes) :
  Compress Gzip data
  = Ok (gzip_header
        ++ concat (snd (flate_Write flate_NewWriter data))
        ++ concat (flate_Close (fst (flate_Write flate_NewWriter data)))
        ++ le_PutUint32 (crc32_Update 0 data)
        ++ le_PutUint32 (Z.of_nat (length data) mod 2 ^ 32)).
Proof.
  unfold Compress. simpl. rewrite gzip_Write_Buffer.
  unfold gzip_Close. simpl. rewrite write_all_Buffer. simpl.
  by rewrite <- !app_assoc.
Qed.

(** The Gzip payload is complete when [Compress] returns: after the
    10-byte header come the blocks written during [Write], then those that
    [Close] flushes, then the trailer with the CRC-32 of the input and its
    length modulo 2^32, both little-endian; it is at least 18 bytes long. *)
Theorem Compress_Gzip_framing (data : bytes) :
  exists blocks,
    Compress Gzip data
    = Ok ([x1f; x8b; x08; x00; x00; x00; x00; x00; x00; xff]
          ++ blocks
          ++ le_PutUint32 (crc32_Update 0 data)
          ++ le_PutUint32 (Z.of_nat (length data) mod 2 ^ 32))
    /\ blocks = concat (snd (flate_Write flate_NewWriter data))
                ++ concat (flate_Close (fst (flate_Write flate_NewWriter data)))
    /\ (forall out, Compress Gzip data = Ok out -> (18 <= length out)%nat).
Proof.
  eexists. split; [|split; [reflexivity|]].
  - rewrite Compress_Gzip_value. unfold gzip_header. by rewrite <- !app_assoc.
  - intros out. rewrite Compress_Gzip_value. intros [= <-].
    unfold gzip_header, le_PutUint32. simpl. rewrite !length_app. simpl. lia.
Qed.

(** [Compress] fails exactly for a value that is none of None, Snappy and
    Gzip, and then with the error that names the number. *)
Theorem Compress_fails_iff_undefined (c : Compression) (data : bytes) :
  ((exists e, Compress c data = Err e) <-> c <> 0 /\ c <> 1 /\ c <> 2)
  /\ (forall e, Compress c data = Err e ->
        e = "unsupported encoding %INVALID!(" +:+ pretty c +:+ ")").
Proof.
  destruct (decide (c = 0)) as [->|H0].
  { split; [split; [intros [e [=]]|lia]|intros e [=]]. }
  destruct (decide (c = 1)) as [->|H1].
  { split; [split; [intros [e [=]]|lia]|intros e [=]]. }
  destruct (decide (c = 2)) as [->|H2].
  { change 2 with Gzip. rewrite Compress_Gzip_value.
    split; [split; [intros [e [=]]|unfold Gzip; lia]|intros e [=]]. }
  assert (Compress c data
          = Err ("unsupported encoding %INVALID!(" +:+ pretty c +:+ ")")) as ->.
  { unfold Compress, Compression_String, Compression_None, Snappy, Gzip.
    by rewrite (proj2 (Z.eqb_neq _ _) H0), (proj2 (Z.eqb_neq _ _) H1),
      (proj2 (Z.eqb_neq _ _) H2). }
  split; [split; [done|eauto]|by intros e [= <-]].
Qed.

End compression_more.

(** * Properties of [NewRemoteMetricsWriter] *)

Section constructor_properties.

Context `{ext : Externals}.

Variable strings_TrimSpace : string -> string.
Variable http_DefaultClient : http_Client.
Variable prometheus_DefaultGatherer : Gatherer.

Local Abbreviation New :=
  (NewRemoteMetricsWriter strings_TrimSpace http_DefaultClient prometheus_DefaultGatherer).

Lemma New_Ok_inv (url : string) (options : RemoteMetricsWriterOptions)
    (gs : option (list Gatherer)) (w : writerImpl) :
  New url options gs = Ok w ->
  strings_TrimSpace url <> ""
  /\ w = mkWriterImpl
           (default http_DefaultClient (HTTPClient options))
           url
           (default [prometheus_DefaultGatherer] gs)
           (if Options_Format options =? 0 then Protobuf else Options_Format options)
           (Options_Compression options)
           (if decide (strings_TrimSpace (RemoteWriteVersion options) = "")
            then DefaultRemoteWriteVersion else RemoteWriteVersion options).
Proof.
  unfold NewRemoteMetricsWriter. case_decide; [done|].
  intros [= <-]. split; [done|]. by destruct (HTTPClient options), gs.
Qed.

(** The constructor fails exactly when the target URL is empty once its
    surrounding white space is removed, always with the same error;
    nothing else (an undefined format or compression, an empty version)
    makes it fail. *)
Theorem NewRemoteMetricsWriter_fails_iff_blank
    (url : string) (options : RemoteMetricsWriterOptions) (gs : option (list Gatherer)) :
  ((exists e, New url options gs = Err e) <-> strings_TrimSpace url = "")
  /\ (forall e, New url options gs = Err e -> e = "options.TargetURL must be set")
  /\ (strings_TrimSpace url <> "" -> exists w, New url options gs = Ok w).
Proof.
  unfold NewRemoteMetricsWriter. case_decide as Hblank.
  - split; [split; eauto|]. split; [by intros e [= <-]|done].
  - split; [split; [by intros [e [=]]|done]|]. split; [by intros e [=]|eauto].
Qed.

(** What a constructed writer holds: the target URL and a non-blank
    version exactly as given (not trimmed), version 0.1.0 for a blank one,
    Protobuf for format 0 and any other format as given (so never 0), the
    compression as given, the default client only when none is given. *)
Theorem NewRemoteMetricsWriter_fields
    (url : string) (options : RemoteMetricsWriterOptions)
    (gs : option (list Gatherer)) (w : writerImpl) :
  New url options gs = Ok w ->
  targetURL w = url
  /\ format w <> 0
  /\ (Options_Format options = 0 -> format w = 1)
  /\ (Options_Format options <> 0 -> format w = Options_Format options)
  /\ encoding w = Options_Compression options
  /\ (strings_TrimSpace (RemoteWriteVersion options) = "" -> version w = "0.1.0")
  /\ (strings_TrimSpace (RemoteWriteVersion options) <> "" ->
        version w = RemoteWriteVersion options)
  /\ (HTTPClient options = None -> hc w = http_DefaultClient)
  /\ (forall client, HTTPClient options = Some client -> hc w = client).
Proof.
  intros Hnew. destruct (New_Ok_inv url options gs w Hnew) as [_ ->]. simpl.
  split; [done|]. split.
  { destruct (Options_Format options =? 0) eqn:E; [done|by apply Z.eqb_neq]. }
  split; [by intros ->|]. split.
  { intros Hf. by rewrite (proj2 (Z.eqb_neq _ _) Hf). }
  split; [done|]. split; [intros Hv; by case_decide|].
  split; [intros Hv; by case_decide|]. split; [by intros ->|by intros client ->].
Qed.

(** Called without gatherers, the constructor installs the default one:
    [WriteMetrics] on the writer then gathers from it first and does not
    stop at the check for missing gatherers. *)
Theorem NewRemoteMetricsWriter_default_gatherer
    (url : string) (options : RemoteMetricsWriterOptions) (w : writerImpl)
    (c : context_Context) :
  New url options None = Ok w ->
  gatherers w = [prometheus_DefaultGatherer]
  /\ exists rest, fst (WriteMetrics w (Some c))
                  = EvGather [prometheus_DefaultGatherer] :: rest.
Proof.
  intros Hnew. destruct (New_Ok_inv url options None w Hnew) as [_ ->]. simpl.
  split; [done|]. unfold WriteMetrics. simpl.
  repeat case_match; simpl; eauto.
Qed.

(** Called with an empty (non-nil) slice of gatherers, the constructor
    succeeds and keeps it: every [WriteMetrics] on the writer with a
    context returns 0 and the error for missing gatherers, calling
    nothing. *)
Theorem NewRemoteMetricsWriter_empty_gatherers
    (url : string) (options : RemoteMetricsWriterOptions) (w : writerImpl)
    (c : context_Context) :
  New url options (Some []) = Ok w ->
  WriteMetrics w (Some c) = ([], (0, Some ErrNoGatherersDefined)).
Proof.
  intros Hnew. by destruct (New_Ok_inv url options (Some []) w Hnew) as [_ ->].
Qed.

(** With the zero options (no client, format 0, compression 0) the writer
    sends through the default client the protobuf serialization itself,
    not compressed, with Content-Type application/x-protobuf and without
    setting Content-Encoding. *)
Theorem NewRemoteMetricsWriter_zero_options
    (url : string) (options : RemoteMetricsWriterOptions)
    (gs : option (list Gatherer)) (w : writerImpl)
    (ctx : option context_Context) (tr : list Event) (n : Z) (err : option error)
    (req : http.Request context_Context) (r : result http.Response) :
  New url options gs = Ok w ->
  HTTPClient options = None ->
  Options_Format options = 0 ->
  Options_Compression options = 0 ->
  WriteMetrics w ctx = (tr, (n, err)) ->
  In (EvDo req r) tr ->
  r = http_DefaultClient req
  /\ http.Request_Header req !! "Content-Type" = Some ["application/x-protobuf"]
  /\ exists c wr payload req0,
       ctx = Some c
       /\ In (EvMarshal 1 wr) tr
       /\ WriteRequest_Marshal wr = Ok payload
       /\ http_NewRequestWithContext c "POST" url payload = Ok req0
       /\ http.Request_Body req = http.Request_Body req0
       /\ http.Request_Header req !! "Content-Encoding"
          = http.Request_Header req0 !! "Content-Encoding".
Proof.
  intros Hnew Hclient Hf He H Hin.
  destruct (New_Ok_inv url options gs w Hnew) as [_ Hw].
  rewrite Hclient, Hf, He in Hw. simpl in Hw.
  destruct (WriteMetrics_Do_inv w ctx tr n err req r H Hin)
    as (c & wr & u & z & req0 & Hc & Hm & Hz & Hreq & Hprep & Hr & Htr).
  subst w. simpl in *.
  unfold Compress in Hz. simpl in Hz. injection Hz as <-.
  unfold Format_Marshal in Hm. simpl in Hm.
  subst req.
  unfold Compression_UpdateRequest, Format_UpdateRequest, http.with_Header,
    http.Header_Set, http.Header_Add, http.Header. simpl.
  split; [done|]. split; [by rewrite lookup_insert_eq|].
  exists c, wr, u, req0. split; [done|]. split; [rewrite Htr; right; by left|].
  split; [done|]. split; [done|].
  split; [done|]. by rewrite !lookup_insert_ne by done.
Qed.

End constructor_properties.

(** * The properties above on the scenarios *)

Lemma WriteMetrics_run_eq `{ext : Externals}
    (w : writerImpl) (ctx : option context_Context) :
  WriteMetrics w ctx
  = (fst (WriteMetrics w ctx),
     (fst (snd (WriteMetrics w ctx)), snd (snd (WriteMetrics w ctx)))).
Proof. by destruct (WriteMetrics w ctx) as [tr [n err]]. Qed.

(** The runs of the scenarios reach the serializer and the transport. *)
Lemma w_ok_marshals :
  exists wr, In (EvMarshal 2 wr) (fst (WriteMetrics Scenario.w_ok (Some tt))).
Proof. eexists. vm_compute. right; left; reflexivity. Qed.

Lemma w_ok_sends :
  exists req, In (EvDo req (Ok (http.mkResponse "200 OK" 200)))
                (fst (WriteMetrics Scenario.w_ok (Some tt))).
Proof. eexists. vm_compute. do 4 right; left; reflexivity. Qed.

Lemma w_protobuf_snappy_sends :
  exists req, In (EvDo req (Ok (http.mkResponse "200 OK" 200)))
                (fst (WriteMetrics Variants.w_protobuf_snappy (Some tt))).
Proof. eexists. vm_compute. do 4 right; left; reflexivity. Qed.

Lemma zero_options_writer_sends :
  exists req,
    In (EvDo req (Ok (http.mkResponse "204 No Content" 204)))
      (fst (WriteMetrics
              (mkWriterImpl Construction.default_client "http://127.0.0.1/receive"
                 [Construction.default_gatherer] 1 0 "0.1.0") (Some tt))).
Proof. eexists. vm_compute. do 4 right; left; reflexivity. Qed.

Lemma w_format7_marshals :
  exists wr, In (EvMarshal 7 wr) (fst (WriteMetrics Variants.w_format7 (Some tt))).
Proof. eexists. vm_compute. right; left; reflexivity. Qed.

Lemma w_encoding9_compresses :
  exists data, In (EvCompress 9 data) (fst (WriteMetrics Variants.w_encoding9 (Some tt))).
Proof. eexists. vm_compute. do 2 right; left; reflexivity. Qed.

Lemma WriteMetrics_request_content_witness :
  exists wr,
    In (EvMarshal 2 wr) (fst (WriteMetrics Scenario.w_ok (Some tt)))
    /\ length (prompb.Timeseries wr) = 3%nat
    /\ length (prompb.Metadata wr) = 4%nat.
Proof.
  destruct w_ok_marshals as [wr Hin].
  destruct (WriteMetrics_request_content Scenario.w_ok (Some tt) _ _ _ 2 wr
              (WriteMetrics_run_eq _ _) Hin) as (_ & Hts & Hmd & _).
  exists wr. split; [exact Hin|]. rewrite Hts, Hmd. split; reflexivity.
Defined.

(** The counter family of the test is announced with wire type UNKNOWN. *)
Lemma WriteMetrics_metadata_type_witness :
  exists wr md,
    In (EvMarshal 2 wr) (fst (WriteMetrics Scenario.w_ok (Some tt)))
    /\ prompb.Metadata wr !! 0%nat = Some md
    /\ prompb.MetricMetadata_Type md = 0
    /\ prompb_MetricType_name (prompb.MetricMetadata_Type md) = Some "UNKNOWN".
Proof.
  destruct w_ok_marshals as [wr Hin].
  destruct (WriteMetrics_metadata_type Scenario.w_ok (Some tt) _ _ _ 2 wr 0
              Scenario.counter_family (WriteMetrics_run_eq _ _) Hin eq_refl)
    as (md & Hmd & Htype & _ & Hcounter & _).
  exists wr, md. split; [exact Hin|]. split; [exact Hmd|].
  split; [exact Htype|exact (Hcounter eq_refl)].
Defined.

Lemma WriteMetrics_transport_last_witness :
  exists req wr uncompressed compressed,
    fst (WriteMetrics Variants.w_protobuf_snappy (Some tt))
    = [EvGather (gatherers Variants.w_protobuf_snappy); EvMarshal 1 wr;
       EvCompress 1 uncompressed;
       EvNewRequest "POST" "http://127.0.0.1/receive" compressed;
       EvDo req (Ok (http.mkResponse "200 OK" 200));
       EvBodyClose (http.mkResponse "200 OK" 200)].
Proof.
  destruct w_protobuf_snappy_sends as [req Hin].
  destruct (WriteMetrics_transport_last Variants.w_protobuf_snappy (Some tt) _ _ _ req _
              (WriteMetrics_run_eq _ _) Hin)
    as (c & wr & u & z & req0 & _ & _ & _ & _ & _ & _ & Htr).
  exists req, wr, u, z. exact Htr.
Defined.

(** The second test: JSON and gzip. *)
Lemma WriteMetrics_request_headers_witness :
  exists req,
    In (EvDo req (Ok (http.mkResponse "200 OK" 200)))
      (fst (WriteMetrics Scenario.w_ok (Some tt)))
    /\ http.Request_Header req !! "Content-Type" = Some ["application/json"]
    /\ http.Request_Header req !! "Content-Encoding" = Some ["gzip"]
    /\ http.Request_Header req !! "X-Prometheus-Remote-Write-Version" = Some ["0.1.0"].
Proof.
  destruct w_ok_sends as [req Hin].
  destruct (WriteMetrics_request_headers Scenario.w_ok (Some tt) _ _ _ req _
              (WriteMetrics_run_eq _ _) Hin)
    as (c & z & req0 & Hreq & Hct & Hver & Hce & _).
  exists req. split; [exact Hin|]. split; [exact Hct|].
  split; [apply Hce; discriminate|].
  rewrite Hver. injection Hreq as <-. reflexivity.
Defined.

Lemma WriteMetrics_success_cases_witness :
  exists req resp,
    In (EvDo req (Ok resp)) (fst (WriteMetrics Scenario.w_ok (Some tt)))
    /\ 200 <= http.StatusCode resp <= 299.
Proof.
  destruct (WriteMetrics_success_cases Scenario.w_ok (Some tt)
              (fst (WriteMetrics Scenario.w_ok (Some tt))) 3)
    as [(Hnone & _)|(req & resp & Hin & Hcode & _)].
  - vm_compute. reflexivity.
  - discriminate Hnone.
  - exists req, resp. split; [exact Hin|exact Hcode].
Defined.

Lemma WriteMetrics_undefined_variant_witness :
  snd (WriteMetrics Variants.w_format7 (Some tt))
  = (0, Some "unrecognized format %INVALID!(7)")
  /\ snd (WriteMetrics Variants.w_encoding9 (Some tt))
     = (0, Some "unsupported encoding %INVALID!(9)").
Proof.
  split.
  - destruct w_format7_marshals as [wr Hin].
    destruct (proj1 (WriteMetrics_undefined_variant Variants.w_format7 (Some tt) _ _ _
                       (WriteMetrics_run_eq _ _)) 7 wr Hin)
      as (Hn & Herr & _); [discriminate|discriminate|].
    rewrite (surjective_pairing (snd _)), Hn, Herr. reflexivity.
  - destruct w_encoding9_compresses as [data Hin].
    destruct (proj2 (WriteMetrics_undefined_variant Variants.w_encoding9 (Some tt) _ _ _
                       (WriteMetrics_run_eq _ _)) 9 data Hin)
      as (Hn & Herr & _); [discriminate|discriminate|discriminate|].
    rewrite (surjective_pairing (snd _)), Hn, Herr. reflexivity.
Defined.

Lemma NewRemoteMetricsWriter_fields_witness :
  exists w,
    Construction.New " http://127.0.0.1/receive " (mkOptions None 0 Gzip "  ") None = Ok w
    /\ targetURL w = " http://127.0.0.1/receive "
    /\ format w = 1
    /\ version w = "0.1.0".
Proof.
  exists (mkWriterImpl Construction.default_client " http://127.0.0.1/receive "
            [Construction.default_gatherer] 1 Gzip "0.1.0").
  destruct (NewRemoteMetricsWriter_fields
              Construction.TrimSpace Construction.default_client
              Construction.default_gatherer
              " http://127.0.0.1/receive " (mkOptions None 0 Gzip "  ") None _ eq_refl)
    as (Hurl & _ & Hf & _ & _ & Hv & _).
  split; [reflexivity|]. split; [exact Hurl|].
  split; [exact (Hf eq_refl)|exact (Hv eq_refl)].
Defined.

Lemma NewRemoteMetricsWriter_default_gatherer_witness :
  exists w rest,
    Construction.New "http://127.0.0.1/receive" Construction.zero_options None = Ok w
    /\ fst (WriteMetrics w (Some tt)) = EvGather [Construction.default_gatherer] :: rest.
Proof.
  exists (mkWriterImpl Construction.default_client "http://127.0.0.1/receive"
            [Construction.default_gatherer] 1 0 "0.1.0").
  destruct (NewRemoteMetricsWriter_default_gatherer
              Construction.TrimSpace Construction.default_client
              Construction.default_gatherer
              "http://127.0.0.1/receive" Construction.zero_options _ tt eq_refl)
    as (_ & rest & Hrest).
  exists rest. split; [reflexivity|exact Hrest].
Defined.

Lemma NewRemoteMetricsWriter_empty_gatherers_witness :
  exists w,
    Construction.New "http://127.0.0.1/receive" Construction.zero_options (Some []) = Ok w
    /\ WriteMetrics w (Some tt) = ([], (0, Some "no gatherers were defined")).
Proof.
  exists (mkWriterImpl Construction.default_client "http://127.0.0.1/receive"
            [] 1 0 "0.1.0").
  split; [reflexivity|].
  exact (NewRemoteMetricsWriter_empty_gatherers
           Construction.TrimSpace Construction.default_client
           Construction.default_gatherer
           "http://127.0.0.1/receive" Construction.zero_options _ tt eq_refl).
Defined.

Lemma NewRemoteMetricsWriter_zero_options_witness :
  exists w req,
    Construction.New "http://127.0.0.1/receive" Construction.zero_options None = Ok w
    /\ In (EvDo req (Ok (http.mkResponse "204 No Content" 204)))
         (fst (WriteMetrics w (Some tt)))
    /\ http.Request_Header req !! "Content-Type" = Some ["application/x-protobuf"]
    /\ http.Request_Header req !! "Content-Encoding" = None.
Proof.
  exists (mkWriterImpl Construction.default_client "http://127.0.0.1/receive"
            [Construction.default_gatherer] 1 0 "0.1.0").
  destruct zero_options_writer_sends as [req Hin].
  destruct (NewRemoteMetricsWriter_zero_options
              Construction.TrimSpace Construction.default_client
              Construction.default_gatherer
              "http://127.0.0.1/receive" Construction.zero_options None _ (Some tt)
              _ _ _ req _ eq_refl eq_refl eq_refl eq_refl (WriteMetrics_run_eq _ _) Hin)
    as (_ & Hct & c & wr & payload & req0 & _ & _ & _ & Hreq & _ & Hce).
  exists req. split; [reflexivity|]. split; [exact Hin|]. split; [exact Hct|].
  injection Hreq as <-. exact Hce.
Defined.
